(** * Streaming response consumption engine

    A shallow embedding of the streaming chat client
    ([src/lib/streaming-client.ts]: [StreamingChatClient], its frame
    decoder [processStream], its dispatcher [handleEvent], [abort] and
    [isStreaming]) and of the chat view that drives it
    ([ChatInterface]: [useTokenBatcher], [handleSubmit] and the
    session-guarded handlers it passes to [streamMessage]).

    JavaScript strings are sequences of UTF-16 code units, bytes are
    [Byte.byte], the session counter is a JavaScript number restricted to
    the values an incrementing counter started at 0 can take. *)

From Stdlib Require Import List NArith ZArith Bool Lia.
From Stdlib Require Import Strings.String Strings.Ascii Strings.Byte Floats.
Import ListNotations.

Set Implicit Arguments.

(* ================================================================== *)
(** ** JavaScript strings *)
(* ================================================================== *)

Module JsString.

(** A UTF-16 code unit, [0 <= c < 65536]. *)
Definition char16 := N.

(** A JavaScript string value. *)
Definition jsstring := list char16.

(** An ASCII literal of the source, as a JavaScript string. *)
Fixpoint str (s : string) : jsstring :=
  match s with
  | EmptyString => []
  | String a s' => N_of_ascii a :: str s'
  end.

Definition LF : char16 := 10%N.
Definition COLON : char16 := 58%N.

Fixpoint eqb (a b : jsstring) : bool :=
  match a, b with
  | [], [] => true
  | x :: a', y :: b' => N.eqb x y && eqb a' b'
  | _, _ => false
  end.

(** [s.startsWith(p)] *)
Fixpoint startsWith (p s : jsstring) : bool :=
  match p, s with
  | [], _ => true
  | x :: p', y :: s' => N.eqb x y && startsWith p' s'
  | _ :: _, [] => false
  end.

(** [s.substring(n)] for [n] a non-negative integer. *)
Definition substring (n : nat) (s : jsstring) : jsstring := skipn n s.

(** ECMAScript WhiteSpace and LineTerminator code points, the characters
    [String.prototype.trim] strips. All of them lie in the Basic
    Multilingual Plane, so the test is per code unit. *)
Definition isStripped (c : char16) : bool :=
  (N.leb 9 c && N.leb c 13)            (* TAB, LF, VT, FF, CR *)
  || N.eqb c 32                         (* SP *)
  || N.eqb c 160                        (* NBSP *)
  || N.eqb c 5760                       (* U+1680 *)
  || (N.leb 8192 c && N.leb c 8202)     (* U+2000 .. U+200A *)
  || N.eqb c 8232 || N.eqb c 8233       (* LS, PS *)
  || N.eqb c 8239                       (* U+202F *)
  || N.eqb c 8287                       (* U+205F *)
  || N.eqb c 12288                      (* U+3000 *)
  || N.eqb c 65279.                     (* ZWNBSP / BOM *)

Fixpoint trimStart (s : jsstring) : jsstring :=
  match s with
  | c :: s' => if isStripped c then trimStart s' else s
  | [] => []
  end.

(** [s.trim()] *)
Definition trim (s : jsstring) : jsstring :=
  rev (trimStart (rev (trimStart s))).

(** JavaScript truthiness of a string: non-empty. *)
Definition truthy (s : jsstring) : bool :=
  match s with [] => false | _ :: _ => true end.

(** Puts [c] in front of the first piece of a split. *)
Definition consHead (c : char16) (parts : list jsstring) : list jsstring :=
  match parts with
  | p :: ps => (c :: p) :: ps
  | [] => [[c]]
  end.

(** [s.split('\n\n')]: the pieces between the leftmost, non-overlapping
    occurrences of two consecutive line feeds. Never empty: a string with
    no separator splits into itself. *)
Fixpoint splitBlank (s : jsstring) : list jsstring :=
  match s with
  | [] => [[]]
  | c :: s' =>
      match s' with
      | c' :: s'' =>
          if N.eqb c LF && N.eqb c' LF then [] :: splitBlank s''
          else consHead c (splitBlank s')
      | [] => [[c]]
      end
  end.

(** [s.split('\n')] *)
Fixpoint splitLines (s : jsstring) : list jsstring :=
  match s with
  | [] => [[]]
  | c :: s' =>
      if N.eqb c LF then [] :: splitLines s'
      else consHead c (splitLines s')
  end.

(** [const last = parts.pop() || ''] together with what [pop] leaves in
    the array. *)
Fixpoint pop (parts : list jsstring) : list jsstring * jsstring :=
  match parts with
  | [] => ([], [])
  | [p] => ([], p)
  | p :: ps => let (init, l) := pop ps in (p :: init, l)
  end.

End JsString.
Import JsString.

(* ================================================================== *)
(** ** [TextDecoder]: incremental UTF-8 decoding *)
(* ================================================================== *)

(** [new TextDecoder()] and [decoder.decode(value, { stream: true })],
    after the Encoding Standard: the UTF-8 decoder's handler run byte by
    byte, its output stripped of one leading byte order mark and
    written as UTF-16 code units. The decoder keeps its state between
    calls, and the source never makes the final, flushing call. *)
Module TextDecoder.

Record Utf8 := {
  code_point : N;
  bytes_seen : N;
  bytes_needed : N;
  lower_boundary : N;
  upper_boundary : N
}.

Definition utf8_initial : Utf8 :=
  {| code_point := 0; bytes_seen := 0; bytes_needed := 0;
     lower_boundary := 128; upper_boundary := 191 |}.

Definition REPLACEMENT : N := 65533.

Definition between (lo hi b : N) : bool := N.leb lo b && N.leb b hi.

(** The handler's step for a byte read while no sequence is open. *)
Definition utf8_lead (st : Utf8) (b : N) : Utf8 * list N :=
  if between 0 127 b then (st, [b])
  else if between 194 223 b then
    ({| code_point := N.land b 31; bytes_seen := bytes_seen st;
        bytes_needed := 1;
        lower_boundary := lower_boundary st;
        upper_boundary := upper_boundary st |}, [])
  else if between 224 239 b then
    ({| code_point := N.land b 15; bytes_seen := bytes_seen st;
        bytes_needed := 2;
        lower_boundary := if N.eqb b 224 then 160 else lower_boundary st;
        upper_boundary := if N.eqb b 237 then 159 else upper_boundary st |}, [])
  else if between 240 244 b then
    ({| code_point := N.land b 7; bytes_seen := bytes_seen st;
        bytes_needed := 3;
        lower_boundary := if N.eqb b 240 then 144 else lower_boundary st;
        upper_boundary := if N.eqb b 244 then 143 else upper_boundary st |}, [])
  else (st, [REPLACEMENT]).

(** The UTF-8 decoder's handler. A byte that cannot continue the open
    sequence closes it with U+FFFD and is then read again as a first
    byte. *)
Definition utf8_handler (st : Utf8) (b : N) : Utf8 * list N :=
  if N.eqb (bytes_needed st) 0 then utf8_lead st b
  else if negb (between (lower_boundary st) (upper_boundary st) b) then
    let (st', out) := utf8_lead utf8_initial b in (st', REPLACEMENT :: out)
  else
    let cp := N.lor (N.shiftl (code_point st) 6) (N.land b 63) in
    let seen := N.succ (bytes_seen st) in
    if N.eqb seen (bytes_needed st) then (utf8_initial, [cp])
    else ({| code_point := cp; bytes_seen := seen;
             bytes_needed := bytes_needed st;
             lower_boundary := 128; upper_boundary := 191 |}, []).

(** The state of one [TextDecoder] used with [stream: true]. *)
Record t := { utf8 : Utf8; BOM_seen : bool }.

(** [new TextDecoder()] *)
Definition create : t := {| utf8 := utf8_initial; BOM_seen := false |}.

(** A scalar value as UTF-16 code units. *)
Definition codeUnits (cp : N) : jsstring :=
  if N.ltb cp 65536 then [cp]
  else let v := (cp - 65536)%N in
       [(55296 + N.shiftr v 10)%N; (56320 + N.land v 1023)%N].

(** Serialising the decoder's output: the first scalar value is dropped
    when it is the byte order mark. *)
Fixpoint serialize (seen : bool) (items : list N) : bool * jsstring :=
  match items with
  | [] => (seen, [])
  | cp :: rest =>
      if negb seen && N.eqb cp 65279 then serialize true rest
      else let (seen', out) := serialize true rest in
           (seen', codeUnits cp ++ out)
  end.

(** One byte through the decoder. *)
Definition feed (d : t) (b : byte) : t * jsstring :=
  let (u, items) := utf8_handler (utf8 d) (Byte.to_N b) in
  let (seen, out) := serialize (BOM_seen d) items in
  ({| utf8 := u; BOM_seen := seen |}, out).

(** [decoder.decode(value, { stream: true })] *)
Fixpoint decode (d : t) (value : list byte) : t * jsstring :=
  match value with
  | [] => (d, [])
  | b :: rest =>
      let (d1, out1) := feed d b in
      let (d2, out2) := decode d1 rest in
      (d2, out1 ++ out2)
  end.

End TextDecoder.

(* ================================================================== *)
(** ** Values, errors, handlers and observable effects *)
(* ================================================================== *)

(** A JavaScript value as [JSON.parse] builds it, and [undefined]. *)
#[warnings="-register-all"]
Inductive JsValue :=
| VUndefined
| VNull
| VBool (b : bool)
| VNum (x : float)
| VStr (s : jsstring)
| VArr (items : list JsValue)
| VObj (fields : list (jsstring * JsValue)).

Fixpoint lookup (k : jsstring) (fields : list (jsstring * JsValue)) : JsValue :=
  match fields with
  | [] => VUndefined
  | (k', v) :: rest => if JsString.eqb k k' then v else lookup k rest
  end.

(** [v.k] for the property names the client reads ([type], [data],
    [status], [message]), none of which a prototype defines: a
    [TypeError] ([None]) on [null] and [undefined], the own property of
    an object, [undefined] on everything else. *)
Definition getProp (v : JsValue) (k : string) : option JsValue :=
  match v with
  | VUndefined | VNull => None
  | VObj fields => Some (lookup (str k) fields)
  | _ => Some VUndefined
  end.

(** A thrown value, as far as the [catch] blocks look at it. *)
Module JsError.
Record t := {
  instanceofError : bool;   (* error instanceof Error *)
  name : jsstring;
  message : jsstring
}.
End JsError.

Definition JsError := JsError.t.

(** [new Error(msg)] *)
Definition newError (msg : jsstring) : JsError :=
  {| JsError.instanceofError := true; JsError.name := str "Error";
     JsError.message := msg |}.

(** A [DOMException]; its prototype chain holds [Error.prototype]. *)
Definition DOMException (msg : jsstring) (nm : string) : JsError :=
  {| JsError.instanceofError := true; JsError.name := str nm;
     JsError.message := msg |}.

(** The callbacks a caller supplied: [true] where the property holds a
    function, [false] where it was left out. A supplied callback is
    taken to return normally. *)
Record StreamEventHandlers := {
  onToken : bool;
  onStatus : bool;
  onProgress : bool;
  onComplete : bool;
  onError : bool;
  onMetadata : bool
}.

(** One call of a supplied callback, with its arguments. *)
Inductive HandlerCall :=
| OnToken (token : JsValue)
| OnStatus (status message : JsValue)
| OnProgress (progress : JsValue)
| OnComplete (data : JsValue)
| OnError (error : JsValue)
| OnMetadata (metadata : JsValue).

(** What the client does that is visible from outside, in order. *)
Inductive Effect :=
| Invoke (call : HandlerCall)
| ConsoleWarn (eventType : JsValue)   (* 'Unknown event type:' *)
| ConsoleError (data : jsstring)      (* 'Failed to parse event:' *)
| ConsoleLog (text : string).

Definition isInvoke (e : Effect) : bool :=
  match e with Invoke _ => true | _ => false end.

Definition isOnError (e : Effect) : bool :=
  match e with Invoke (OnError _) => true | _ => false end.

(** The handler calls among the effects. *)
Definition handlerCalls (effs : list Effect) : list Effect :=
  filter isInvoke effs.

(** [export const StreamEventType] *)
Module StreamEventType.
Definition STATUS := "status"%string.
Definition TOKEN := "token"%string.
Definition SOURCES := "sources"%string.
Definition PROGRESS := "progress"%string.
Definition COMPLETE := "complete"%string.
Definition ERROR := "error"%string.
Definition METADATA := "metadata"%string.
End StreamEventType.

(** [x === 'literal'] *)
Definition strictEq (v : JsValue) (lit : string) : bool :=
  match v with
  | VStr s => JsString.eqb s (str lit)
  | _ => false
  end.

(** A parsed event of the given type. *)
Definition mkEvent (ty : string) (data : JsValue) (timestamp : jsstring) : JsValue :=
  VObj [(str "type", VStr (str ty)); (str "data", data);
        (str "timestamp", VStr timestamp)].

(* ================================================================== *)
(** ** [StreamingChatClient] *)
(* ================================================================== *)

Module StreamingChatClient.

(** A property of the caller's [StreamingClientConfig] object that may
    be left out: [None] when the object has no such property,
    [Some None] when it has it with the value [undefined]. *)
Definition optional := option (option float).

(** [StreamingClientConfig], as passed to the constructor. *)
Record StreamingClientConfig := {
  apiUrl : jsstring;
  token : jsstring;
  timeout : optional;
  retryAttempts : optional;
  retryDelay : optional
}.

(** [this.config]; [None] is [undefined]. *)
Record Config := {
  cfg_apiUrl : jsstring;
  cfg_token : jsstring;
  cfg_timeout : option float;
  cfg_retryAttempts : option float;
  cfg_retryDelay : option float
}.

(** [{ k: default, ...config }]: a property the object has, whatever
    its value, replaces the default. *)
Definition spread (default : float) (p : optional) : option float :=
  match p with
  | None => Some default
  | Some v => v
  end.

(** What the transport gives one [streamMessage] call. *)
Inductive Cause := ManualAbort | Timeout.

(** The reason a signal aborts with, which is what a pending [fetch] or
    [reader.read()] on it rejects with: [controller.abort()] gives an
    [AbortError], [AbortSignal.timeout] a [TimeoutError], and
    [AbortSignal.any] passes on the reason of the source that fired. *)
Definition abortReason (c : Cause) : JsError :=
  match c with
  | ManualAbort => DOMException (str "signal is aborted without reason") "AbortError"
  | Timeout => DOMException (str "signal timed out") "TimeoutError"
  end.

(** How the reads of a response body end. *)
Inductive ReadEnd :=
| Done                      (* [{ done: true }] *)
| ReadErrored (e : JsError) (* the stream errors *)
| ReadCancelled (c : Cause) (* the signal fires during a read *).

(** A response body: the chunks [reader.read()] yields, then its end. *)
Record Body := { chunks : list (list byte); ending : ReadEnd }.

Inductive Transport :=
| FetchErrored (e : JsError)
| FetchCancelled (c : Cause)
| Response (ok : bool) (status : float) (statusText : jsstring)
           (body : option Body).

(** How an [async] function settles. *)
Inductive Settled :=
| Resolved
| Rejected (e : JsError).

(** What the runtime offers of [AbortSignal]. *)
Record Runtime := {
  any_is_function : bool;      (* typeof AbortSignal.any === 'function' *)
  timeout_is_function : bool   (* typeof AbortSignal.timeout === 'function' *)
}.

(** [AbortSignal.timeout(ms)] takes an [[EnforceRange] unsigned long
    long]: it throws a [TypeError] unless [ms] is a number whose integer
    part lies in [0 .. 2^53 - 1]. *)
Definition timeoutAccepts (ms : option float) : bool :=
  match ms with
  | None => false
  | Some x => (PrimFloat.ltb (-1) x && PrimFloat.ltb x 9007199254740992)%float
  end.

Section Client.

(** [JSON.parse]: the value parsed, [None] for a [SyntaxError]. *)
Variable JSON_parse : jsstring -> option JsValue.

(** A number in a template literal. *)
Variable Number_toString : float -> jsstring.

(** The instance: [this.config] and [this.abortController], a
    controller being known by the number of the call that made it. *)
Record t := {
  config : Config;
  abortController : option nat
}.

(** [constructor(config)] *)
Definition create (cfg : StreamingClientConfig) : t :=
  {| config :=
       {| cfg_apiUrl := apiUrl cfg;
          cfg_token := token cfg;
          cfg_timeout := spread 30000 (timeout cfg);
          cfg_retryAttempts := spread 3 (retryAttempts cfg);
          cfg_retryDelay := spread 1000 (retryDelay cfg) |};
     abortController := None |}.

(** [handlers.onX?.(args)]: the arguments are evaluated, and the call
    made, only when the callback is there; [None] when evaluating the
    arguments throws. *)
Definition optCall (present : bool) (call : option HandlerCall) : option (list Effect) :=
  if present then
    match call with
    | Some c => Some [Invoke c]
    | None => None
    end
  else Some [].

Definition bind {A B} (x : option A) (f : A -> option B) : option B :=
  match x with Some a => f a | None => None end.

(** [handleEvent(event, handlers)]; [None] when it throws. *)
Definition handleEvent (event : JsValue) (handlers : StreamEventHandlers) : option (list Effect) :=
  bind (getProp event "type") (fun ty =>
  if strictEq ty StreamEventType.TOKEN then
    optCall (onToken handlers)
      (bind (getProp event "data") (fun d => Some (OnToken d)))
  else if strictEq ty StreamEventType.STATUS then
    optCall (onStatus handlers)
      (bind (getProp event "data") (fun d =>
       bind (getProp d "status") (fun st =>
       bind (getProp d "message") (fun msg => Some (OnStatus st msg)))))
  else if strictEq ty StreamEventType.PROGRESS then
    optCall (onProgress handlers)
      (bind (getProp event "data") (fun d => Some (OnProgress d)))
  else if strictEq ty StreamEventType.COMPLETE then
    optCall (onComplete handlers)
      (bind (getProp event "data") (fun d => Some (OnComplete d)))
  else if strictEq ty StreamEventType.ERROR then
    optCall (onError handlers)
      (bind (getProp event "data") (fun d => Some (OnError d)))
  else if strictEq ty StreamEventType.METADATA then
    optCall (onMetadata handlers)
      (bind (getProp event "data") (fun d => Some (OnMetadata d)))
  else Some [ConsoleWarn ty]).

(** The body of [for (const line of lines)]: a [data: ] line is parsed
    and dispatched inside one [try], whose [catch] logs. *)
Definition processLine (handlers : StreamEventHandlers) (line : jsstring) : list Effect :=
  if startsWith (str "data: ") line then
    let data := substring 6 line in
    match bind (JSON_parse data) (fun event => handleEvent event handlers) with
    | Some effs => effs
    | None => [ConsoleError data]
    end
  else [].

(** The body of [for (const eventText of events)]. *)
Definition processEvent (handlers : StreamEventHandlers) (eventText : jsstring) : list Effect :=
  if negb (truthy (trim eventText)) then []
  else if startsWith (str ":") eventText then []
  else flat_map (processLine handlers) (splitLines eventText).

(** The locals of [processStream] that live across reads. *)
Record Loop := { decoder : TextDecoder.t; buffer : jsstring }.

Definition start : Loop := {| decoder := TextDecoder.create; buffer := [] |}.

(** One turn of [while (true)] for a read that yields [value]. *)
Definition onChunk (handlers : StreamEventHandlers) (l : Loop) (value : list byte) : Loop * list Effect :=
  let (d, text) := TextDecoder.decode (decoder l) value in
  let (events, rest) := pop (splitBlank (buffer l ++ text)) in
  ({| decoder := d; buffer := rest |}, flat_map (processEvent handlers) events).

(** The turns for the chunks the reader yields, in order. *)
Fixpoint readAll (handlers : StreamEventHandlers) (l : Loop) (cs : list (list byte)) : Loop * list Effect :=
  match cs with
  | [] => (l, [])
  | value :: rest =>
      let (l1, e1) := onChunk handlers l value in
      let (l2, e2) := readAll handlers l1 rest in
      (l2, e1 ++ e2)
  end.

(** [processStream(body, handlers)]: the loop leaves only on
    [done] or on a read that rejects; what is left in [buffer] is
    dropped. *)
Definition processStream (body : Body) (handlers : StreamEventHandlers) : list Effect * Settled :=
  let effs := snd (readAll handlers start (chunks body)) in
  match ending body with
  | Done => (effs, Resolved)
  | ReadErrored e => (effs, Rejected e)
  | ReadCancelled c => (effs, Rejected (abortReason c))
  end.

(** [abort()]: the instance afterwards, and the controller whose
    [abort()] was called, if there was one. *)
Definition abort (c : t) : t * option nat :=
  match abortController c with
  | Some k => ({| config := config c; abortController := None |}, Some k)
  | None => (c, None)
  end.

(** [isStreaming()] *)
Definition isStreaming (c : t) : bool :=
  match abortController c with Some _ => true | None => false end.

(** The sources of the signal handed to [fetch]: the controller's own
    signal, and the timeout when [AbortSignal.any] and
    [AbortSignal.timeout] are there and do not throw. *)
Definition signalSources (rt : Runtime) (c : t) : list Cause :=
  if any_is_function rt && timeout_is_function rt
     && timeoutAccepts (cfg_timeout (config c))
  then [ManualAbort; Timeout]
  else [ManualAbort].

(** [streamMessage] up to its first [await]: the stream before it is
    aborted and controller [k] installed. *)
Definition streamMessage_begin (k : nat) (c : t) : t :=
  {| config := config (fst (abort c)); abortController := Some k |}.

(** [this.config.timeout / 1000] *)
Definition timeoutSeconds (c : t) : float :=
  match cfg_timeout (config c) with
  | Some ms => (ms / 1000)%float
  | None => PrimFloat.nan
  end.

Definition errorPayload (msg : jsstring) (code : string) (recoverable : bool) : JsValue :=
  VObj [(str "message", VStr msg); (str "code", VStr (str code));
        (str "recoverable", VBool recoverable)].

(** The [try] block from the settling of [fetch] on. *)
Definition tryBlock (handlers : StreamEventHandlers) (tr : Transport) : list Effect * Settled :=
  match tr with
  | FetchErrored e => ([], Rejected e)
  | FetchCancelled c => ([], Rejected (abortReason c))
  | Response ok status statusText body =>
      if negb ok then
        ([], Rejected (newError (str "HTTP " ++ Number_toString status
                                  ++ str ": " ++ statusText)))
      else match body with
           | None => ([], Rejected (newError (str "Response body is null")))
           | Some b => processStream b handlers
           end
  end.

(** The [catch (error)] block, which throws [error] again. *)
Definition catchBlock (c : t) (handlers : StreamEventHandlers) (error : JsError) : list Effect :=
  if JsError.instanceofError error then
    if JsString.eqb (JsError.name error) (str "AbortError") then
      [ConsoleLog "Stream aborted by user"]
    else if JsString.eqb (JsError.name error) (str "TimeoutError") then
      if onError handlers then
        [Invoke (OnError (errorPayload
           (str "Request timed out after " ++ Number_toString (timeoutSeconds c)
              ++ str " seconds") "TIMEOUT" true))]
      else []
    else
      if onError handlers then
        [Invoke (OnError (errorPayload (JsError.message error) "CLIENT_ERROR" false))]
      else []
  else [].

(** A finished [streamMessage] call. *)
Record Run := { effects : list Effect; settled : Settled; after : t }.

(** [streamMessage] from the settling of [fetch] to its own: [try],
    [catch] and [finally], on the instance as it is by then. *)
Definition streamMessage_finish (c : t) (handlers : StreamEventHandlers) (tr : Transport) : Run :=
  let (effs, r) := tryBlock handlers tr in
  let c' := {| config := config c; abortController := None |} in
  match r with
  | Resolved => {| effects := effs; settled := Resolved; after := c' |}
  | Rejected e =>
      {| effects := effs ++ catchBlock c handlers e;
         settled := Rejected e; after := c' |}
  end.

End Client.

End StreamingChatClient.

(* ================================================================== *)
(** ** [ChatInterface]: sessions and token batching *)
(* ================================================================== *)

Module ChatInterface.

Local Open Scope Z_scope.

(** [StreamStatus] *)
Inductive StreamStatus := STARTING | RETRIEVING | GENERATING | COMPLETE | ERROR.

(** The integers a JavaScript number counts through exactly: from
    [2^53] on, adding one gives the same number back. *)
Definition EXACT_LIMIT : Z := 9007199254740992.

(** [n++] on a number that holds a non-negative integer. *)
Definition increment (n : Z) : Z :=
  if n <? EXACT_LIMIT then n + 1 else n.

(** The only setter ever handed to the batcher. *)
Inductive Setter := setStreamingResponse.

(** Everything a callback of the component can read or write: the
    module-level counter, the [useState] values, the refs of the
    component and of [useTokenBatcher], and the browser's list of
    requested animation frames. *)
Record State := {
  streamSessionId : Z;
  message : jsstring;
  streamingResponse : jsstring;
  pendingMessage : option jsstring;
  streamingStatus : option StreamStatus;
  streamError : option jsstring;
  currentSessionRef : Z;
  pendingTokens : jsstring;
  rafId : option nat;
  setterRef : option Setter;
  frameRequests : list nat;
  nextFrame : nat
}.

(** The state when the module is loaded and the component mounted. *)
Definition initial : State :=
  {| streamSessionId := 0; message := []; streamingResponse := [];
     pendingMessage := None; streamingStatus := None; streamError := None;
     currentSessionRef := 0; pendingTokens := []; rafId := None;
     setterRef := None; frameRequests := []; nextFrame := 1%nat |}.

(** What a callback asks of its collaborators. *)
Inductive Request :=
| StreamMessage (userMessage : jsstring) (thisSession : Z)
| Refetch
| SetTimeout (thisSession : Z)
| Console (text : string).

(** *** Field updates *)

Definition withView (msg resp : jsstring) (pm : option jsstring)
    (status : option StreamStatus) (err : option jsstring) (st : State) : State :=
  {| streamSessionId := streamSessionId st; message := msg;
     streamingResponse := resp; pendingMessage := pm;
     streamingStatus := status; streamError := err;
     currentSessionRef := currentSessionRef st;
     pendingTokens := pendingTokens st; rafId := rafId st;
     setterRef := setterRef st; frameRequests := frameRequests st;
     nextFrame := nextFrame st |}.

Definition setMessage (v : jsstring) (st : State) : State :=
  withView v (streamingResponse st) (pendingMessage st) (streamingStatus st) (streamError st) st.

Definition setStreamingResponseTo (v : jsstring) (st : State) : State :=
  withView (message st) v (pendingMessage st) (streamingStatus st) (streamError st) st.

Definition setPendingMessage (v : option jsstring) (st : State) : State :=
  withView (message st) (streamingResponse st) v (streamingStatus st) (streamError st) st.

Definition setStreamingStatus (v : option StreamStatus) (st : State) : State :=
  withView (message st) (streamingResponse st) (pendingMessage st) v (streamError st) st.

Definition setStreamError (v : option jsstring) (st : State) : State :=
  withView (message st) (streamingResponse st) (pendingMessage st) (streamingStatus st) v st.

Definition withBatcher (pending : jsstring) (raf : option nat)
    (setter : option Setter) (frames : list nat) (next : nat) (st : State) : State :=
  {| streamSessionId := streamSessionId st; message := message st;
     streamingResponse := streamingResponse st;
     pendingMessage := pendingMessage st;
     streamingStatus := streamingStatus st; streamError := streamError st;
     currentSessionRef := currentSessionRef st;
     pendingTokens := pending; rafId := raf; setterRef := setter;
     frameRequests := frames; nextFrame := next |}.

Definition withSession (counter current : Z) (st : State) : State :=
  {| streamSessionId := counter; message := message st;
     streamingResponse := streamingResponse st;
     pendingMessage := pendingMessage st;
     streamingStatus := streamingStatus st; streamError := streamError st;
     currentSessionRef := current;
     pendingTokens := pendingTokens st; rafId := rafId st;
     setterRef := setterRef st; frameRequests := frameRequests st;
     nextFrame := nextFrame st |}.

(** *** [useTokenBatcher] *)

(** [flush]: the pending text goes to the display in one update. *)
Definition flush (st : State) : State :=
  let st1 :=
    match setterRef st with
    | Some setStreamingResponse =>
        if truthy (pendingTokens st) then
          let tokens := pendingTokens st in
          setStreamingResponseTo (streamingResponse st ++ tokens)
            (withBatcher [] (rafId st) (setterRef st)
               (frameRequests st) (nextFrame st) st)
        else st
    | None => st
    end in
  withBatcher (pendingTokens st1) None (setterRef st1)
    (frameRequests st1) (nextFrame st1) st1.

(** [addToken(token, setter)] *)
Definition addToken (token : jsstring) (setter : Setter) (st : State) : State :=
  let pending := pendingTokens st ++ token in
  match rafId st with
  | None =>
      (* rafId.current = requestAnimationFrame(flush) *)
      withBatcher pending (Some (nextFrame st)) (Some setter)
        (frameRequests st ++ [nextFrame st]) (S (nextFrame st)) st
  | Some _ =>
      withBatcher pending (rafId st) (Some setter)
        (frameRequests st) (nextFrame st) st
  end.

(** [cancelAnimationFrame(h)] *)
Definition cancelAnimationFrame (h : nat) (frames : list nat) : list nat :=
  filter (fun h' => negb (Nat.eqb h' h)) frames.

(** [reset()] *)
Definition reset (st : State) : State :=
  match rafId st with
  | Some h =>
      withBatcher [] None (setterRef st)
        (cancelAnimationFrame h (frameRequests st)) (nextFrame st) st
  | None =>
      withBatcher [] None (setterRef st) (frameRequests st) (nextFrame st) st
  end.

(** *** [handleSubmit] and the callbacks it creates *)

(** [handleSubmit(e)] up to its [await], where [isStreaming] is the value
    the rendered closure holds. *)
Definition handleSubmit (isStreaming : bool) (st : State) : State * list Request :=
  if negb (truthy (trim (message st))) || isStreaming then (st, [])
  else
    let userMessage := trim (message st) in
    let thisSession := increment (streamSessionId st) in
    let st1 := withSession thisSession thisSession st in
    let st2 := setMessage [] st1 in
    let st3 := setPendingMessage (Some userMessage) st2 in
    let st4 := setStreamingResponseTo [] st3 in
    let st5 := setStreamingStatus (Some STARTING) st4 in
    let st6 := setStreamError None st5 in
    let st7 := reset st6 in
    (st7, [StreamMessage userMessage thisSession]).

(** The pieces of code of one [handleSubmit] call that run later, each
    closed over that call's [thisSession]. *)
Inductive Callback :=
| Token (token : jsstring)                 (* onToken *)
| Status (status : StreamStatus)           (* onStatus *)
| Progress                                 (* onProgress *)
| CompleteBegin                            (* onComplete, up to its await *)
| CompleteResume                           (* onComplete, after its await *)
| Error (message : jsstring)               (* onError *)
| ErrorTimer                               (* the timer set by onError *)
| Catch (error : JsError)                  (* the catch of handleSubmit *)
| CatchTimer.                              (* the timer set by the catch *)

(** [currentSessionRef.current !== thisSession] *)
Definition stale (thisSession : Z) (st : State) : bool :=
  negb (Z.eqb (currentSessionRef st) thisSession).

(** [x || fallback] on strings. *)
Definition orElse (x : jsstring) (fallback : string) : jsstring :=
  if truthy x then x else str fallback.

Definition clearAfterFailure (msg : jsstring) (st : State) : State :=
  setPendingMessage None
    (setStreamingResponseTo []
       (setStreamError (Some msg)
          (setStreamingStatus (Some ERROR) st))).

Definition runCallback (thisSession : Z) (cb : Callback) (st : State) : State * list Request :=
  match cb with
  | Token token =>
      if stale thisSession st then (st, [])
      else (setStreamError None (addToken token setStreamingResponse st), [])
  | Status status =>
      if stale thisSession st then (st, [])
      else (setStreamingStatus (Some status) st, [Console "Status"])
  | Progress => (st, [Console "Progress:"])
  | CompleteBegin =>
      if stale thisSession st then (st, [Console "Ignoring stale stream completion"])
      else (st, [Console "Stream complete:"; Refetch])
  | CompleteResume =>
      if stale thisSession st then (st, [])
      else (setStreamError None
              (setPendingMessage None
                 (setStreamingResponseTo []
                    (setStreamingStatus None st))), [])
  | Error msg =>
      if stale thisSession st then (st, [])
      else (clearAfterFailure (orElse msg "An error occurred while streaming") st,
            [Console "Stream error:"; SetTimeout thisSession])
  | ErrorTimer | CatchTimer =>
      if stale thisSession st then (st, [])
      else (setStreamError None (setStreamingStatus None st), [])
  | Catch error =>
      if stale thisSession st then (st, [])
      else
        let errorMessage :=
          if JsError.instanceofError error then JsError.message error
          else str "Failed to connect to streaming service" in
        (clearAfterFailure errorMessage st,
         [Console "Failed to stream message:"; SetTimeout thisSession])
  end.

(** What can happen to the component, one task at a time. *)
Inductive Action :=
| Submit (isStreaming : bool)          (* the form is submitted *)
| Change (value : jsstring)            (* the textarea's onChange *)
| Call (thisSession : Z) (cb : Callback)
| AnimationFrame (handle : nat).       (* the browser runs a frame request *)

Definition step (a : Action) (st : State) : State * list Request :=
  match a with
  | Submit isStreaming => handleSubmit isStreaming st
  | Change value => (setMessage value st, [])
  | Call thisSession cb => runCallback thisSession cb st
  | AnimationFrame h =>
      if existsb (Nat.eqb h) (frameRequests st) then
        (flush (withBatcher (pendingTokens st) (rafId st) (setterRef st)
                  (cancelAnimationFrame h (frameRequests st)) (nextFrame st) st), [])
      else (st, [])
  end.

(** The state after a sequence of tasks. *)
Fixpoint run (tr : list Action) (st : State) : State :=
  match tr with
  | [] => st
  | a :: rest => run rest (fst (step a st))
  end.



End ChatInterface.

(* ================================================================== *)
(** ** Notions used in the statements *)
(* ================================================================== *)

Section Notions.

Import StreamingChatClient.

(** The complete frames of a buffer and the text left after the last
    blank line, which is what one turn of the read loop computes. *)
Definition frames (text : jsstring) : list jsstring := fst (pop (splitBlank text)).
Definition leftover (text : jsstring) : jsstring := snd (pop (splitBlank text)).

(** A text with no line feed in it: a single line. *)
Definition noLF (s : jsstring) : bool :=
  forallb (fun c => negb (N.eqb c LF)) s.

(** The text of a whole response body, as the decoder of
    [processStream] produces it. *)
Definition decoded (body : Body) : jsstring :=
  snd (TextDecoder.decode TextDecoder.create (List.concat (chunks body))).

(** How [processStream] settles for each way the reads can end. *)
Definition settles (e : ReadEnd) : Settled :=
  match e with
  | Done => Resolved
  | ReadErrored err => Rejected err
  | ReadCancelled c => Rejected (abortReason c)
  end.

(** The frames the loop looks into: not blank, not starting with a
    colon. *)
Definition skipped (eventText : jsstring) : bool :=
  negb (truthy (trim eventText)) || startsWith (str ":") eventText.

(** The lines the inner loop of [processStream] goes through for a
    text, in order. *)
Definition streamLines (text : jsstring) : list jsstring :=
  flat_map (fun f => if skipped f then [] else splitLines f) (frames text).

Definition Cause_eqb (a b : Cause) : bool :=
  match a, b with
  | ManualAbort, ManualAbort | Timeout, Timeout => true
  | _, _ => false
  end.

(** The call's pending [fetch] or [reader.read()] is rejected because
    the given source of its signal fired. *)
Definition cancelledBy (cause : Cause) (tr : Transport) : bool :=
  match tr with
  | FetchCancelled c => Cause_eqb c cause
  | Response true _ _ (Some body) =>
      match ending body with
      | ReadCancelled c => Cause_eqb c cause
      | _ => false
      end
  | _ => false
  end.

Variable JSON_parse : jsstring -> option JsValue.
Variable handlers : StreamEventHandlers.

(** The effects of dispatching every complete frame of a text. *)
Definition dispatchFrames (text : jsstring) : list Effect :=
  flat_map (processEvent JSON_parse handlers) (frames text).

(** The effects of going through lines one by one. *)
Definition dispatchLines (lines : list jsstring) : list Effect :=
  flat_map (processLine JSON_parse handlers) lines.

End Notions.


(** What the batcher and the browser's frame requests keep between
    tasks: the one frame the batcher asked for is the only one
    requested, pending text always has a frame requested and a setter to
    go to. *)
Definition batcherConsistent (st : ChatInterface.State) : Prop :=
  ChatInterface.frameRequests st = match ChatInterface.rafId st with Some h => [h] | None => [] end
  /\ (ChatInterface.rafId st = None -> ChatInterface.pendingTokens st = [])
  /\ (truthy (ChatInterface.pendingTokens st) = true -> ChatInterface.setterRef st = Some ChatInterface.setStreamingResponse).

(** *** Sample data for the examples *)

(** A line feed, for the literals below. *)
Definition nl : string := String (ascii_of_N 10) EmptyString.

(** The bytes of an ASCII literal, written with apostrophes in place of
    double quotes. *)
Definition bytes (s : string) : list byte :=
  map (fun b => if Byte.eqb b x27 then x22 else b) (list_byte_of_string s).

(** A JSON text written with apostrophes in place of double quotes. *)
Definition json (s : string) : jsstring :=
  map (fun c => if N.eqb c 39 then 34%N else c) (str s).

Definition tokenJson := json "{'type':'token','data':'Hi','timestamp':'t'}".
Definition completeJson := json "{'type':'complete','data':null,'timestamp':'t'}".
Definition sourcesJson := json "{'type':'sources','data':[],'timestamp':'t'}".

(** [JSON.parse] on the three texts above; every other text of the
    examples is not JSON. *)
Definition sampleParse (s : jsstring) : option JsValue :=
  if JsString.eqb s tokenJson then
    Some (mkEvent "token" (VStr (str "Hi")) (str "t"))
  else if JsString.eqb s completeJson then
    Some (mkEvent "complete" VNull (str "t"))
  else if JsString.eqb s sourcesJson then
    Some (mkEvent "sources" (VArr []) (str "t"))
  else None.

Definition sampleNumber (x : float) : jsstring := str "30".

(** Data lines carrying the sample events. *)
Definition tokenLine : string := "data: {'type':'token','data':'Hi','timestamp':'t'}".
Definition completeLine : string := "data: {'type':'complete','data':null,'timestamp':'t'}".

(** An [error] event whose payload the server itself classifies as a
    recoverable timeout, and [JSON.parse] on the sample texts and on it. *)
Definition errorJson :=
  json "{'type':'error','data':{'message':'slow','code':'TIMEOUT','recoverable':true},'timestamp':'t'}".

Definition errorLine : string :=
  "data: {'type':'error','data':{'message':'slow','code':'TIMEOUT','recoverable':true},'timestamp':'t'}".

Definition sampleParseWithError (s : jsstring) : option JsValue :=
  if JsString.eqb s errorJson then
    Some (mkEvent "error"
            (StreamingChatClient.errorPayload (str "slow") "TIMEOUT" true)
            (str "t"))
  else sampleParse s.

(** A caller that supplies every callback but [onError]. *)
Definition handlersWithoutOnError : StreamEventHandlers :=
  {| onToken := true; onStatus := true; onProgress := true;
     onComplete := true; onError := false; onMetadata := true |}.

(** A caller that supplies every callback. *)
Definition allHandlers : StreamEventHandlers :=
  {| onToken := true; onStatus := true; onProgress := true;
     onComplete := true; onError := true; onMetadata := true |}.

(** A client with the default configuration. *)
Definition sampleClient : StreamingChatClient.t :=
  StreamingChatClient.create
    {| StreamingChatClient.apiUrl := str "/api/chat/stream";
       StreamingChatClient.token := str "jwt";
       StreamingChatClient.timeout := None;
       StreamingChatClient.retryAttempts := None;
       StreamingChatClient.retryDelay := None |}.

(** A runtime with [AbortSignal.any] and [AbortSignal.timeout]. *)
Definition modernRuntime : StreamingChatClient.Runtime :=
  {| StreamingChatClient.any_is_function := true;
     StreamingChatClient.timeout_is_function := true |}.

(** A response body that ends normally. *)
Definition bodyOf (cs : list string) : StreamingChatClient.Body :=
  {| StreamingChatClient.chunks := map bytes cs;
     StreamingChatClient.ending := StreamingChatClient.Done |}.

(* ================================================================== *)
(** ** The rest of the client and of the view *)
(* ================================================================== *)

(** The object [useStreamingChat] hands to the constructor,
    [{ apiUrl, token, timeout, retryAttempts, retryDelay }]: it names
    all five properties, so each optional one is there, holding what
    reading it from the caller's object gave, a number or [undefined]. *)
Definition hookConfig (config : StreamingChatClient.StreamingClientConfig)
    : StreamingChatClient.StreamingClientConfig :=
  let read (p : StreamingChatClient.optional) : StreamingChatClient.optional :=
    Some (match p with Some v => v | None => None end) in
  {| StreamingChatClient.apiUrl := StreamingChatClient.apiUrl config;
     StreamingChatClient.token := StreamingChatClient.token config;
     StreamingChatClient.timeout := read (StreamingChatClient.timeout config);
     StreamingChatClient.retryAttempts :=
       read (StreamingChatClient.retryAttempts config);
     StreamingChatClient.retryDelay :=
       read (StreamingChatClient.retryDelay config) |}.

(** [v == null]: [null] or [undefined]. *)
Definition nullish (v : JsValue) : bool :=
  match v with
  | VNull | VUndefined => true
  | _ => false
  end.

(** [v.k] where reading cannot throw, [undefined] otherwise. *)
Definition prop (v : JsValue) (k : string) : JsValue :=
  match getProp v k with
  | Some x => x
  | None => VUndefined
  end.

(** Every callback is supplied. *)
Definition allSupplied (h : StreamEventHandlers) : bool :=
  onToken h && onStatus h && onProgress h && onComplete h && onError h
  && onMetadata h.

(** A text holds two consecutive line feeds. *)
Fixpoint hasBlank (s : jsstring) : bool :=
  match s with
  | c :: s' =>
      match s' with
      | c' :: _ => (N.eqb c LF && N.eqb c' LF) || hasBlank s'
      | [] => false
      end
  | [] => false
  end.

(** Frames put back together, each followed by a blank line. *)
Definition joinFrames (fs : list jsstring) : jsstring :=
  flat_map (fun f => f ++ [LF; LF]) fs.


(** Bytes below 128, and the text they decode to. *)
Definition isAscii (bs : list byte) : bool :=
  forallb (fun b => N.ltb (Byte.to_N b) 128) bs.

Definition asciiText (bs : list byte) : jsstring := map Byte.to_N bs.

(** [getSelectedDocumentNames] of the view, over the two properties of a
    [Document] it reads. *)
Module Documents.

Record Document := { id : jsstring; filename : jsstring }.

(** [documents.find(doc => doc.id === id)?.filename]; [None] is
    [undefined]. *)
Definition filenameOf (documents : list Document) (i : jsstring) : option jsstring :=
  option_map filename (find (fun doc => JsString.eqb (id doc) i) documents).

(** [Boolean(x)] for a string or [undefined]. *)
Definition Boolean (x : option jsstring) : bool :=
  match x with
  | Some s => truthy s
  | None => false
  end.

(** [selectedDocuments.map(...).filter(Boolean)] *)
Definition getSelectedDocumentNames (selectedDocuments : list jsstring)
    (documents : list Document) : list (option jsstring) :=
  filter Boolean (map (filenameOf documents) selectedDocuments).

(** [toggleDocumentSelection] of the document store, as a function of
    the selection. *)
Definition toggleDocumentSelection (documentId : jsstring)
    (selectedDocuments : list jsstring) : list jsstring :=
  if existsb (JsString.eqb documentId) selectedDocuments then
    filter (fun i => negb (JsString.eqb i documentId)) selectedDocuments
  else selectedDocuments ++ [documentId].

(** [clearSelection] *)
Definition clearSelection (selectedDocuments : list jsstring) : list jsstring := [].

End Documents.

(* ================================================================== *)
(** * Properties *)
(* ================================================================== *)

(** ** Splitting a buffer into frames *)

(** Induction on a string two characters at a time, following
    [splitBlank]. *)
Lemma jsstring_ind2 (P : jsstring -> Prop) :
  P [] -> (forall x, P [x]) ->
  (forall x y l, P l -> P (y :: l) -> P (x :: y :: l)) ->
  forall l, P l.
Proof.
  intros H0 H1 H2 l.
  assert (H : P l /\ forall x, P (x :: l)).
  { induction l as [|y l [IHa IHb]]; split; auto. }
  apply H.
Qed.

Lemma splitBlank_cons2 x y l :
  splitBlank (x :: y :: l) =
    if N.eqb x LF && N.eqb y LF then [] :: splitBlank l
    else consHead x (splitBlank (y :: l)).
Proof. reflexivity. Qed.

Lemma consHead_nonempty c parts : consHead c parts <> [].
Proof. destruct parts; discriminate. Qed.

Lemma splitBlank_nonempty s : splitBlank s <> [].
Proof.
  induction s as [| x | x y l IHl IHyl] using jsstring_ind2; try discriminate.
  rewrite splitBlank_cons2. destruct (N.eqb x LF && N.eqb y LF); [discriminate|].
  apply consHead_nonempty.
Qed.

Lemma pop_cons p parts :
  parts <> [] -> pop (p :: parts) = (p :: fst (pop parts), snd (pop parts)).
Proof.
  destruct parts as [|q parts]; [congruence|]. intros _.
  change (pop (p :: q :: parts))
    with (let (init, l) := pop (q :: parts) in (p :: init, l)).
  destruct (pop (q :: parts)); reflexivity.
Qed.

Lemma pop_app l1 l2 :
  l2 <> [] -> pop (l1 ++ l2) = (l1 ++ fst (pop l2), snd (pop l2)).
Proof.
  intros H. induction l1 as [|p l1 IH]; simpl app.
  - destruct (pop l2); reflexivity.
  - rewrite pop_cons, IH; [reflexivity|].
    destruct l1; simpl; [assumption | discriminate].
Qed.

Lemma pop_inv parts :
  parts <> [] -> parts = fst (pop parts) ++ [snd (pop parts)].
Proof.
  induction parts as [|p parts IH]; [congruence|]. intros _.
  destruct parts as [|q parts]; [reflexivity|].
  rewrite pop_cons by discriminate. simpl. f_equal. apply IH. discriminate.
Qed.

Lemma splitBlank_frames s : splitBlank s = frames s ++ [leftover s].
Proof. apply pop_inv, splitBlank_nonempty. Qed.

Lemma pop_consHead c parts :
  parts <> [] ->
  pop (consHead c parts) =
    match fst (pop parts) with
    | [] => ([], c :: snd (pop parts))
    | p :: f => ((c :: p) :: f, snd (pop parts))
    end.
Proof.
  intros H. destruct parts as [|p parts]; [congruence|].
  destruct parts as [|q parts]; [reflexivity|].
  simpl consHead.
  rewrite (pop_cons (c :: p)), (pop_cons p) by discriminate. reflexivity.
Qed.

(** A buffer with no complete frame is all leftover. *)
Lemma frames_nil_leftover s : frames s = [] -> leftover s = s.
Proof.
  unfold frames, leftover.
  induction s as [| x | x y l IHl IHyl] using jsstring_ind2; try reflexivity.
  rewrite splitBlank_cons2. destruct (N.eqb x LF && N.eqb y LF).
  - rewrite pop_cons by apply splitBlank_nonempty. discriminate.
  - rewrite pop_consHead by apply splitBlank_nonempty.
    destruct (fst (pop (splitBlank (y :: l)))) eqn:E; [|discriminate].
    intros _. simpl. f_equal. apply IHyl. reflexivity.
Qed.

(** Text appended to a buffer never changes the frames already found in
    it: splitting continues from the leftover. *)
Lemma splitBlank_app (a b : jsstring) :
  splitBlank (a ++ b) = frames a ++ splitBlank (leftover a ++ b).
Proof.
  induction a as [| x | x y l IHl IHyl] using jsstring_ind2; try reflexivity.
  unfold frames, leftover in *.
  change ((x :: y :: l) ++ b) with (x :: y :: (l ++ b)).
  rewrite !splitBlank_cons2. destruct (N.eqb x LF && N.eqb y LF) eqn:E2.
  - rewrite pop_cons by apply splitBlank_nonempty. simpl. f_equal. apply IHl.
  - change (y :: l ++ b) with ((y :: l) ++ b). rewrite IHyl.
    rewrite pop_consHead by apply splitBlank_nonempty.
    destruct (fst (pop (splitBlank (y :: l)))) eqn:E.
    + pose proof (frames_nil_leftover (y :: l) E) as L.
      unfold leftover in L. rewrite L.
      cbn [fst snd app].
      rewrite splitBlank_cons2, E2. reflexivity.
    + reflexivity.
Qed.

(** The leftover holds no complete frame. *)
Lemma frames_leftover (s : jsstring) : frames (leftover s) = [].
Proof.
  pose proof (splitBlank_app s []) as H. rewrite !app_nil_r in H.
  rewrite (splitBlank_frames s) in H at 1.
  apply app_inv_head in H. unfold frames. rewrite <- H. reflexivity.
Qed.

Lemma frames_app (a b : jsstring) : frames (a ++ b) = frames a ++ frames (leftover a ++ b).
Proof.
  unfold frames at 1. rewrite splitBlank_app, pop_app by apply splitBlank_nonempty.
  reflexivity.
Qed.

Lemma leftover_app (a b : jsstring) : leftover (a ++ b) = leftover (leftover a ++ b).
Proof.
  unfold leftover at 1. rewrite splitBlank_app, pop_app by apply splitBlank_nonempty.
  reflexivity.
Qed.

(** A single line followed by a blank line is one frame. *)
Lemma splitBlank_line (f s : jsstring) :
  noLF f = true -> splitBlank (f ++ LF :: LF :: s) = f :: splitBlank s.
Proof.
  induction f as [|c f IH]; intros H.
  - reflexivity.
  - simpl in H. apply andb_prop in H as [Hc Hf].
    simpl app. destruct (f ++ LF :: LF :: s) as [|y l] eqn:E.
    + destruct f; discriminate.
    + rewrite splitBlank_cons2.
      destruct (N.eqb c LF); [discriminate|].
      cbn [andb]. rewrite IH by assumption. reflexivity.
Qed.

Lemma frames_line (s1 f s2 : jsstring) :
  leftover s1 = [] -> noLF f = true ->
  frames (s1 ++ f ++ LF :: LF :: s2) = frames s1 ++ f :: frames s2.
Proof.
  intros H1 Hf. rewrite frames_app, H1. simpl app. unfold frames at 2.
  rewrite splitBlank_line by assumption.
  rewrite pop_cons by apply splitBlank_nonempty. reflexivity.
Qed.

Lemma splitLines_line (f : jsstring) : noLF f = true -> splitLines f = [f].
Proof.
  induction f as [|c f IH]; intros H; [reflexivity|].
  simpl in H. apply andb_prop in H as [Hc Hf]. simpl.
  destruct (N.eqb c LF); [discriminate|]. rewrite IH by assumption. reflexivity.
Qed.

(** Trimming leaves a character that is not white space in place. *)
Lemma trimStart_keeps (l : jsstring) c :
  isStripped c = false -> truthy (trimStart (l ++ [c])) = true.
Proof.
  intros H. induction l as [|x l IH]; simpl.
  - rewrite H. reflexivity.
  - destruct (isStripped x); [assumption | reflexivity].
Qed.

Lemma trim_truthy c (s : jsstring) :
  isStripped c = false -> truthy (trim (c :: s)) = true.
Proof.
  intros H. unfold trim. simpl trimStart. rewrite H. simpl rev.
  destruct (trimStart (rev s ++ [c])) as [|x l] eqn:E.
  - pose proof (trimStart_keeps (rev s) c H) as K. rewrite E in K. discriminate.
  - simpl. destruct (rev l); reflexivity.
Qed.

(** *** Blank frames and comment lines *)

Lemma trimStart_nil (s : jsstring) :
  trimStart s = [] -> forallb isStripped s = true.
Proof.
  induction s as [|c s IH]; [reflexivity|]. simpl.
  destruct (isStripped c); [exact IH | discriminate].
Qed.

Lemma trimStart_head (s : jsstring) x r :
  trimStart s = x :: r -> isStripped x = false.
Proof.
  induction s as [|c s IH]; [discriminate|]. simpl.
  destruct (isStripped c) eqn:E; [exact IH|].
  intros H. injection H as -> _. exact E.
Qed.

(** A string that trims to nothing is white space throughout. *)
Lemma trim_blank (s : jsstring) :
  truthy (trim s) = false -> forallb isStripped s = true.
Proof.
  unfold trim. intros H.
  destruct (trimStart s) as [|x r] eqn:E; [apply trimStart_nil, E|].
  pose proof (trimStart_head _ E) as Hx. simpl rev in H.
  pose proof (trimStart_keeps (rev r) x Hx) as K.
  destruct (trimStart (rev r ++ [x])) as [|y l]; [discriminate|].
  simpl in H. destruct (rev l); discriminate.
Qed.

Lemma splitLines_nonempty (s : jsstring) : splitLines s <> [].
Proof.
  induction s as [|c s IH]; [discriminate|]. simpl.
  destruct (N.eqb c LF); [discriminate | apply consHead_nonempty].
Qed.

Lemma splitLines_forallb (P : char16 -> bool) (s : jsstring) :
  forallb P s = true -> Forall (fun l => forallb P l = true) (splitLines s).
Proof.
  induction s as [|c s IH]; intros H.
  - repeat constructor.
  - simpl in H. apply andb_prop in H as [Hc Hs]. specialize (IH Hs). simpl.
    destruct (N.eqb c LF).
    + constructor; [reflexivity | exact IH].
    + destruct (splitLines s) as [|l ls]; [repeat constructor; simpl; rewrite Hc; reflexivity|].
      inversion IH; subst. constructor; [|assumption].
      simpl. rewrite Hc. assumption.
Qed.

(** ** Incremental decoding *)

(** Decoding is a function of the bytes and of the decoder's state, not
    of where the calls to [decode] cut them. *)
Lemma decode_app d a b :
  TextDecoder.decode d (a ++ b) =
    (fst (TextDecoder.decode (fst (TextDecoder.decode d a)) b),
     snd (TextDecoder.decode d a)
       ++ snd (TextDecoder.decode (fst (TextDecoder.decode d a)) b)).
Proof.
  revert d. induction a as [|x a IH]; intros d; simpl.
  - destruct (TextDecoder.decode d b); reflexivity.
  - destruct (TextDecoder.feed d x) as [d1 o1]. rewrite IH.
    destruct (TextDecoder.decode d1 a) as [d2 o2]. simpl.
    destruct (TextDecoder.decode d2 b) as [d3 o3]. simpl.
    rewrite app_assoc. reflexivity.
Qed.

Section FrameDecoder.

Import StreamingChatClient.

Variable JSON_parse : jsstring -> option JsValue.
Variable handlers : StreamEventHandlers.

Lemma onChunk_eq l value :
  onChunk JSON_parse handlers l value =
    (let dt := TextDecoder.decode (decoder l) value in
     ({| decoder := fst dt; buffer := leftover (buffer l ++ snd dt) |},
      dispatchFrames JSON_parse handlers (buffer l ++ snd dt))).
Proof.
  unfold onChunk, dispatchFrames, frames, leftover.
  destruct (TextDecoder.decode (decoder l) value) as [d text]. simpl.
  destruct (pop (splitBlank (buffer l ++ text))); reflexivity.
Qed.

(** The read loop over any chunks does what one turn does on all their
    bytes. *)
Lemma readAll_concat cs : forall l,
  frames (buffer l) = [] ->
  readAll JSON_parse handlers l cs =
    (let dt := TextDecoder.decode (decoder l) (List.concat cs) in
     ({| decoder := fst dt; buffer := leftover (buffer l ++ snd dt) |},
      dispatchFrames JSON_parse handlers (buffer l ++ snd dt))).
Proof.
  induction cs as [|value cs IH]; intros l Hl.
  - simpl. rewrite app_nil_r. unfold dispatchFrames.
    rewrite Hl, (frames_nil_leftover _ Hl). destruct l; reflexivity.
  - simpl readAll. rewrite onChunk_eq. cbv zeta iota beta.
    rewrite IH by (simpl; apply frames_leftover).
    simpl List.concat. rewrite decode_app. cbn [fst snd decoder buffer].
    rewrite app_assoc, <- leftover_app. f_equal.
    unfold dispatchFrames. rewrite (frames_app (buffer l ++ _)), flat_map_app.
    reflexivity.
Qed.

(** What [processStream] does is fixed by the decoded text of the whole
    body and by how the reads end. *)
Lemma processStream_text body :
  processStream JSON_parse body handlers =
    (dispatchFrames JSON_parse handlers (decoded body),
     settles (ending body)).
Proof.
  unfold processStream. rewrite readAll_concat by reflexivity. simpl.
  unfold decoded, settles. destruct (ending body); reflexivity.
Qed.

Lemma processEvent_lines f :
  processEvent JSON_parse handlers f =
    dispatchLines JSON_parse handlers (if skipped f then [] else splitLines f).
Proof.
  unfold processEvent, skipped, dispatchLines.
  destruct (negb (truthy (trim f))); [reflexivity|].
  destruct (startsWith (str ":") f); reflexivity.
Qed.

Lemma dispatchFrames_lines text :
  dispatchFrames JSON_parse handlers text =
    dispatchLines JSON_parse handlers (streamLines text).
Proof.
  unfold dispatchFrames, streamLines, dispatchLines.
  induction (frames text) as [|f fs IH]; [reflexivity|].
  simpl. rewrite flat_map_app, <- IH, processEvent_lines. reflexivity.
Qed.

(** [processStream] goes through every line of every frame it looks
    into, in order, and settles as the reads end. *)
Lemma processStream_lines body :
  processStream JSON_parse body handlers =
    (dispatchLines JSON_parse handlers (streamLines (decoded body)),
     settles (ending body)).
Proof. rewrite processStream_text, dispatchFrames_lines. reflexivity. Qed.

Lemma dispatchLines_app l1 l2 :
  dispatchLines JSON_parse handlers (l1 ++ l2) =
    dispatchLines JSON_parse handlers l1 ++ dispatchLines JSON_parse handlers l2.
Proof. apply flat_map_app. Qed.

Lemma processLine_comment line :
  startsWith (str ":") line = true -> processLine JSON_parse handlers line = [].
Proof.
  destruct line as [|c line]; intros H; [discriminate H|].
  change (N.eqb 58 c && true = true) in H. rewrite andb_true_r in H.
  apply N.eqb_eq in H. subst c. reflexivity.
Qed.

Lemma processLine_blank line :
  forallb isStripped line = true -> processLine JSON_parse handlers line = [].
Proof.
  destruct line as [|c line]; [reflexivity|]. intros H.
  unfold processLine.
  change (startsWith (str "data: ") (c :: line))
    with (N.eqb 100 c && startsWith (str "ata: ") line).
  destruct (N.eqb 100 c) eqn:E; [|reflexivity].
  apply N.eqb_eq in E. subst c. discriminate H.
Qed.

(** Lines that produce nothing can be left out. *)
Lemma dispatchLines_filter (keep : jsstring -> bool) lines :
  (forall l, keep l = false -> processLine JSON_parse handlers l = []) ->
  dispatchLines JSON_parse handlers lines =
    dispatchLines JSON_parse handlers (filter keep lines).
Proof.
  intros H. unfold dispatchLines.
  induction lines as [|l ls IH]; [reflexivity|]. simpl.
  destruct (keep l) eqn:E; simpl; rewrite IH; [reflexivity|].
  rewrite (H l E). reflexivity.
Qed.

Lemma dispatchLines_blank lines :
  Forall (fun l => forallb isStripped l = true) lines ->
  dispatchLines JSON_parse handlers lines = [].
Proof.
  unfold dispatchLines. induction 1 as [|l ls Hl _ IH]; [reflexivity|].
  simpl. rewrite IH, processLine_blank by assumption. reflexivity.
Qed.

End FrameDecoder.

(** C3. Chunk-split invariance of the frame decoder: however the bytes
    of a response body are cut into chunks, [processStream] produces the
    same effects, in the same order, and settles the same way as when
    all the bytes arrive as one chunk. The cuts may fall inside a data
    line or inside a multi-byte character. *)
Theorem chunk_split_invariance :
  forall (JSON_parse : jsstring -> option JsValue)
         (handlers : StreamEventHandlers)
         (cs : list (list byte)) (e : StreamingChatClient.ReadEnd),
    StreamingChatClient.processStream JSON_parse
      {| StreamingChatClient.chunks := cs; StreamingChatClient.ending := e |}
      handlers
    = StreamingChatClient.processStream JSON_parse
        {| StreamingChatClient.chunks := [List.concat cs];
           StreamingChatClient.ending := e |}
        handlers.
Proof.
  intros. rewrite !processStream_text. unfold decoded. simpl.
  rewrite app_nil_r. reflexivity.
Qed.

(** C7. Malformed-frame resilience: when one of the data lines of a
    stream carries a payload [JSON.parse] rejects, that line is logged
    and nothing else happens for it (no handler is called, [onError]
    included), and the lines before and after it are processed in order
    as if it were not there; how [processStream] settles is decided by
    the end of the reads alone. *)
Theorem malformed_frame_resilience :
  forall (JSON_parse : jsstring -> option JsValue)
         (handlers : StreamEventHandlers)
         (body : StreamingChatClient.Body) (pre post : list jsstring)
         (bad : jsstring),
    streamLines (decoded body) = pre ++ bad :: post ->
    startsWith (str "data: ") bad = true ->
    JSON_parse (substring 6 bad) = None ->
    StreamingChatClient.processStream JSON_parse body handlers =
      (dispatchLines JSON_parse handlers pre
         ++ ConsoleError (substring 6 bad)
         :: dispatchLines JSON_parse handlers post,
       settles (StreamingChatClient.ending body)).
Proof.
  intros parse h body pre post bad Hlines Hdata Hparse.
  rewrite processStream_lines, Hlines, dispatchLines_app. do 2 f_equal.
  change (bad :: post) with ([bad] ++ post). rewrite dispatchLines_app.
  f_equal. unfold dispatchLines. simpl.
  unfold StreamingChatClient.processLine. rewrite Hdata, Hparse. reflexivity.
Qed.

(** C9. An event whose [type] is ['sources'] takes the [default] branch
    of [handleEvent]: the call returns, one warning is logged, and no
    callback is called. *)
Theorem sources_event_dropped :
  forall (fields : list (jsstring * JsValue)) (handlers : StreamEventHandlers),
    lookup (str "type") fields = VStr (str StreamEventType.SOURCES) ->
    StreamingChatClient.handleEvent (VObj fields) handlers =
      Some [ConsoleWarn (VStr (str StreamEventType.SOURCES))]
    /\ handlerCalls [ConsoleWarn (VStr (str StreamEventType.SOURCES))] = [].
Proof.
  intros fields h H. split; [|reflexivity].
  unfold StreamingChatClient.handleEvent.
  change (getProp (VObj fields) "type") with (Some (lookup (str "type") fields)).
  unfold StreamingChatClient.bind. rewrite H. reflexivity.
Qed.

(** C4, the first frame of a stream being a comment line followed by a
    data line: the frame is skipped whole and the token of its data line
    is never dispatched, while the same stream without the comment line
    dispatches it. *)
Lemma comment_first_frame_loses_data :
  fst (StreamingChatClient.processStream sampleParse
         (bodyOf [(": hb" ++ nl ++ tokenLine ++ nl ++ nl)%string]) allHandlers)
    = []
  /\ fst (StreamingChatClient.processStream sampleParse
            (bodyOf [(tokenLine ++ nl ++ nl)%string]) allHandlers)
    = [Invoke (OnToken (VStr (str "Hi")))].
Proof. split; vm_compute; reflexivity. Qed.

(** C4, as the code has it. A frame whose text begins with a colon is
    skipped whole, data lines included. In every other frame the lines
    beginning with a colon produce nothing and the remaining lines are
    processed in order, so its data lines are parsed and dispatched.
    A comment line followed by a blank line, put in at a frame boundary
    of a stream, leaves the effects of the stream as they were. *)
Theorem comment_lines_ignored :
  forall (JSON_parse : jsstring -> option JsValue)
         (handlers : StreamEventHandlers),
    (forall frame,
        startsWith (str ":") frame = true ->
        StreamingChatClient.processEvent JSON_parse handlers frame = [])
    /\ (forall frame,
        startsWith (str ":") frame = false ->
        StreamingChatClient.processEvent JSON_parse handlers frame =
          dispatchLines JSON_parse handlers
            (filter (fun l => negb (startsWith (str ":") l)) (splitLines frame)))
    /\ (forall bodyA bodyB s1 c s2,
        decoded bodyA = s1 ++ c ++ LF :: LF :: s2 ->
        decoded bodyB = s1 ++ s2 ->
        leftover s1 = [] ->
        startsWith (str ":") c = true ->
        noLF c = true ->
        fst (StreamingChatClient.processStream JSON_parse bodyA handlers) =
        fst (StreamingChatClient.processStream JSON_parse bodyB handlers)).
Proof.
  intros parse h. split; [|split].
  - intros frame H. unfold StreamingChatClient.processEvent. rewrite H.
    destruct (negb (truthy (trim frame))); reflexivity.
  - intros frame H. rewrite processEvent_lines. unfold skipped. rewrite H.
    rewrite orb_false_r.
    destruct (truthy (trim frame)) eqn:T; simpl negb; cbv iota.
    + apply dispatchLines_filter. intros l Hl.
      apply processLine_comment, negb_false_iff, Hl.
    + symmetry. apply dispatchLines_blank.
      pose proof (splitLines_forallb isStripped frame (trim_blank frame T)) as F.
      apply Forall_forall. intros l Hl. apply filter_In in Hl as [Hl _].
      revert l Hl. apply Forall_forall. exact F.
  - intros bodyA bodyB s1 c s2 HA HB H1 Hc Hn.
    rewrite !processStream_text, HA, HB. simpl. unfold dispatchFrames.
    rewrite frames_line by assumption.
    rewrite (frames_app s1 s2), H1. simpl app.
    rewrite !flat_map_app. f_equal. simpl.
    unfold StreamingChatClient.processEvent at 1. rewrite Hc.
    destruct (negb (truthy (trim c))); reflexivity.
Qed.

(** ** The orchestrator: resolution, abort and timeout *)

Section Orchestrator.

Import StreamingChatClient.

Variable JSON_parse : jsstring -> option JsValue.
Variable Number_toString : float -> jsstring.
Variable handlers : StreamEventHandlers.

Lemma abortReason_instanceof c : JsError.instanceofError (abortReason c) = true.
Proof. destruct c; reflexivity. Qed.

(** A call cancelled through its signal rejects with the reason of the
    source that fired, after whatever it had dispatched by then. *)
Lemma tryBlock_cancelled cause tr :
  cancelledBy cause tr = true ->
  snd (tryBlock JSON_parse Number_toString handlers tr) = Rejected (abortReason cause).
Proof.
  destruct tr as [e|c|ok status statusText body]; simpl; try discriminate.
  - destruct c, cause; simpl; try discriminate; reflexivity.
  - destruct ok; [|discriminate]. destruct body as [b|]; [|discriminate].
    simpl. unfold processStream. destruct (ending b) as [|e|c]; try discriminate.
    destruct c, cause; simpl; try discriminate; reflexivity.
Qed.

Lemma finish_rejected c tr e :
  snd (tryBlock JSON_parse Number_toString handlers tr) = Rejected e ->
  streamMessage_finish JSON_parse Number_toString c handlers tr =
    {| effects := fst (tryBlock JSON_parse Number_toString handlers tr)
                    ++ catchBlock Number_toString c handlers e;
       settled := Rejected e;
       after := {| config := config c; abortController := None |} |}.
Proof.
  unfold streamMessage_finish.
  destruct (tryBlock JSON_parse Number_toString handlers tr) as [effs r].
  simpl. intros ->. reflexivity.
Qed.

End Orchestrator.

(** C8. End-of-stream-driven resolution. [streamMessage] resolves
    exactly when the response is ok, has a body, and the reader reports
    [done]. A [complete] or [error] event on a data line is dispatched
    and the lines after it are processed like those before it. Text
    after the last blank line of the body is never dispatched. *)
Theorem end_of_stream_resolution :
  forall (JSON_parse : jsstring -> option JsValue)
         (Number_toString : float -> jsstring)
         (handlers : StreamEventHandlers) (c : StreamingChatClient.t),
    (forall tr,
        StreamingChatClient.settled
          (StreamingChatClient.streamMessage_finish JSON_parse Number_toString
             c handlers tr) = StreamingChatClient.Resolved
        <-> exists status statusText body,
              tr = StreamingChatClient.Response true status statusText (Some body)
              /\ StreamingChatClient.ending body = StreamingChatClient.Done)
    /\ (forall body pre line post fields,
        streamLines (decoded body) = pre ++ line :: post ->
        startsWith (str "data: ") line = true ->
        JSON_parse (substring 6 line) = Some (VObj fields) ->
        lookup (str "type") fields = VStr (str StreamEventType.COMPLETE)
        \/ lookup (str "type") fields = VStr (str StreamEventType.ERROR) ->
        exists effs,
          StreamingChatClient.handleEvent (VObj fields) handlers = Some effs
          /\ fst (StreamingChatClient.processStream JSON_parse body handlers) =
               dispatchLines JSON_parse handlers pre ++ effs
                 ++ dispatchLines JSON_parse handlers post)
    /\ (forall body s t,
        decoded body = s ++ t ->
        frames (leftover s ++ t) = [] ->
        fst (StreamingChatClient.processStream JSON_parse body handlers) =
          dispatchFrames JSON_parse handlers s).
Proof.
  intros parse nts h c. split; [|split].
  - intros tr. unfold StreamingChatClient.streamMessage_finish. split.
    + destruct tr as [e|cause|ok status statusText body]; simpl; try discriminate.
      destruct ok; simpl; [|discriminate].
      destruct body as [b|]; simpl; [|discriminate].
      rewrite processStream_text. unfold settles.
      destruct (StreamingChatClient.ending b) eqn:E; simpl; try discriminate.
      intros _. exists status, statusText, b. split; [reflexivity | exact E].
    + intros (status & statusText & body & -> & E). simpl.
      rewrite processStream_text, E. reflexivity.
  - intros body pre line post fields Hlines Hdata Hparse Hty.
    assert (Hev : exists effs,
               StreamingChatClient.handleEvent (VObj fields) h = Some effs).
    { unfold StreamingChatClient.handleEvent.
      change (getProp (VObj fields) "type") with (Some (lookup (str "type") fields)).
      change (getProp (VObj fields) "data") with (Some (lookup (str "data") fields)).
      unfold StreamingChatClient.bind.
      destruct Hty as [-> | ->].
      - change (exists effs,
          StreamingChatClient.optCall (onComplete h)
            (Some (OnComplete (lookup (str "data") fields))) = Some effs).
        unfold StreamingChatClient.optCall. destruct (onComplete h); eauto.
      - change (exists effs,
          StreamingChatClient.optCall (onError h)
            (Some (OnError (lookup (str "data") fields))) = Some effs).
        unfold StreamingChatClient.optCall. destruct (onError h); eauto. }
    destruct Hev as [effs Hev]. exists effs. split; [exact Hev|].
    rewrite processStream_lines, Hlines. simpl fst.
    rewrite dispatchLines_app. f_equal.
    change (line :: post) with ([line] ++ post). rewrite dispatchLines_app.
    f_equal. unfold dispatchLines. simpl.
    unfold StreamingChatClient.processLine. rewrite Hdata, Hparse. simpl.
    rewrite Hev. apply app_nil_r.
  - intros body s t Hdec Hfr. rewrite processStream_text, Hdec. simpl.
    unfold dispatchFrames. rewrite frames_app, Hfr. apply f_equal, app_nil_r.
Qed.

(** C5. Abort silence. After [abort()] returns, [isStreaming()] is
    false. A call whose pending await is rejected because of the manual
    abort runs the [AbortError] branch of its [catch], which logs and
    calls no handler: the call adds nothing but that log line to what it
    had dispatched before, and its promise rejects with the abort
    reason. *)
Theorem abort_silence :
  forall (JSON_parse : jsstring -> option JsValue)
         (Number_toString : float -> jsstring)
         (handlers : StreamEventHandlers)
         (c c2 : StreamingChatClient.t) (tr : StreamingChatClient.Transport),
    cancelledBy StreamingChatClient.ManualAbort tr = true ->
    StreamingChatClient.isStreaming (fst (StreamingChatClient.abort c)) = false
    /\ StreamingChatClient.catchBlock Number_toString c2 handlers
         (StreamingChatClient.abortReason StreamingChatClient.ManualAbort)
       = [ConsoleLog "Stream aborted by user"]
    /\ StreamingChatClient.effects
         (StreamingChatClient.streamMessage_finish JSON_parse Number_toString
            c2 handlers tr)
       = fst (StreamingChatClient.tryBlock JSON_parse Number_toString handlers tr)
           ++ [ConsoleLog "Stream aborted by user"]
    /\ StreamingChatClient.settled
         (StreamingChatClient.streamMessage_finish JSON_parse Number_toString
            c2 handlers tr)
       = StreamingChatClient.Rejected
           (StreamingChatClient.abortReason StreamingChatClient.ManualAbort).
Proof.
  intros parse nts h c c2 tr H.
  pose proof (tryBlock_cancelled parse nts h _ tr H) as R.
  rewrite (finish_rejected _ _ _ _ _ R). simpl.
  repeat split.
  unfold StreamingChatClient.isStreaming, StreamingChatClient.abort.
  destruct (StreamingChatClient.abortController c) eqn:E; simpl; [reflexivity|].
  rewrite E. reflexivity.
Qed.

(** C6, a stream that sends an [error] event and then runs into the
    timeout: [onError] is called twice, once for the event and once by
    the [catch], here both times with code ['TIMEOUT'] and
    [recoverable: true]; and for a caller that left [onError] out, the
    timeout leads to no call at all. *)
Lemma timeout_after_error_event_calls_onError_twice :
  let c := StreamingChatClient.streamMessage_begin 1 sampleClient in
  let tr := StreamingChatClient.Response true 200 (str "OK")
              (Some {| StreamingChatClient.chunks := [bytes (errorLine ++ nl ++ nl)];
                       StreamingChatClient.ending :=
                         StreamingChatClient.ReadCancelled
                           StreamingChatClient.Timeout |}) in
  In StreamingChatClient.Timeout (StreamingChatClient.signalSources modernRuntime c)
  /\ cancelledBy StreamingChatClient.Timeout tr = true
  /\ StreamingChatClient.effects
       (StreamingChatClient.streamMessage_finish sampleParseWithError
          sampleNumber c allHandlers tr)
     = [Invoke (OnError
          (StreamingChatClient.errorPayload (str "slow") "TIMEOUT" true));
        Invoke (OnError
          (StreamingChatClient.errorPayload
             (str "Request timed out after 30 seconds") "TIMEOUT" true))]
  /\ StreamingChatClient.effects
       (StreamingChatClient.streamMessage_finish sampleParseWithError
          sampleNumber c handlersWithoutOnError
          (StreamingChatClient.FetchCancelled StreamingChatClient.Timeout))
     = [].
Proof.
  intros c tr. split; [vm_compute; right; left; reflexivity|].
  repeat split; vm_compute; reflexivity.
Qed.

(** C6, as the code has it. Timeout classification. Where the signal
    handed to [fetch] has the timeout among its sources, a call whose
    pending await is rejected because the timeout fired makes, in its
    [catch], exactly one handler call when [onError] is supplied,
    [onError] with code ['TIMEOUT'] and [recoverable: true], and none
    when it is not; that call comes after, and in addition to, whatever
    the call had dispatched for the events received before, [onError]
    calls for [error] events included; and its promise rejects with the
    timeout reason. *)
Theorem timeout_classification :
  forall (JSON_parse : jsstring -> option JsValue)
         (Number_toString : float -> jsstring)
         (handlers : StreamEventHandlers) (rt : StreamingChatClient.Runtime)
         (c : StreamingChatClient.t) (tr : StreamingChatClient.Transport),
    In StreamingChatClient.Timeout (StreamingChatClient.signalSources rt c) ->
    cancelledBy StreamingChatClient.Timeout tr = true ->
    let payload :=
      StreamingChatClient.errorPayload
        (str "Request timed out after "
           ++ Number_toString (StreamingChatClient.timeoutSeconds c)
           ++ str " seconds") "TIMEOUT" true in
    let before :=
      fst (StreamingChatClient.tryBlock JSON_parse Number_toString handlers tr) in
    let added := if onError handlers then [Invoke (OnError payload)] else [] in
    let run :=
      StreamingChatClient.streamMessage_finish JSON_parse Number_toString
        c handlers tr in
    StreamingChatClient.catchBlock Number_toString c handlers
      (StreamingChatClient.abortReason StreamingChatClient.Timeout)
    = added
    /\ StreamingChatClient.effects run = before ++ added
    /\ List.length (filter isOnError (StreamingChatClient.effects run))
       = List.length (filter isOnError before)
         + (if onError handlers then 1 else 0)
    /\ StreamingChatClient.settled run
       = StreamingChatClient.Rejected
           (StreamingChatClient.abortReason StreamingChatClient.Timeout).
Proof.
  intros parse nts h rt c tr _ H payload before added run.
  pose proof (tryBlock_cancelled parse nts h _ tr H) as R.
  assert (K : StreamingChatClient.catchBlock nts c h
                (StreamingChatClient.abortReason StreamingChatClient.Timeout)
              = added).
  { subst added payload. unfold StreamingChatClient.catchBlock. simpl.
    destruct (onError h); reflexivity. }
  subst run. rewrite (finish_rejected _ _ _ _ _ R).
  cbn [StreamingChatClient.effects StreamingChatClient.settled].
  rewrite K. fold before.
  split; [reflexivity|]. split; [reflexivity|]. split; [|reflexivity].
  rewrite filter_app, length_app. f_equal.
  subst added. destruct (onError h); reflexivity.
Qed.

(** ** The chat view: submissions, sessions and batching *)

Section ChatView.

Import ChatInterface.
Local Open Scope Z_scope.

(** What a call of [handleSubmit] that goes on to [streamMessage] has
    done by then. *)
Lemma handleSubmit_started b st st' m s :
  handleSubmit b st = (st', [StreamMessage m s]) ->
  s = increment (streamSessionId st)
  /\ streamSessionId st' = s /\ currentSessionRef st' = s
  /\ streamingResponse st' = [] /\ pendingTokens st' = [] /\ rafId st' = None
  /\ (forall h, rafId st = Some h -> ~ In h (frameRequests st')).
Proof.
  unfold handleSubmit.
  destruct (negb (truthy (trim (message st))) || b); [discriminate|].
  intros H. injection H as <- _ <-. unfold reset.
  destruct st as [n msg resp pm status err cur pend raf setter fr next].
  destruct raf as [h|]; simpl; repeat split; try discriminate.
  intros h' E. injection E as <-. unfold cancelAnimationFrame.
  intros Hin. apply filter_In in Hin as [_ Hne].
  rewrite Nat.eqb_refl in Hne. discriminate.
Qed.

Lemma increment_le n : n <= increment n.
Proof. unfold increment. destruct (n <? EXACT_LIMIT); lia. Qed.

Lemma increment_lt n : n < EXACT_LIMIT -> n < increment n.
Proof.
  unfold increment. intros H.
  destruct (n <? EXACT_LIMIT) eqn:E; [lia|]. apply Z.ltb_ge in E. lia.
Qed.

(** The session fields after a call of [handleSubmit]: untouched, or both
    set to the incremented counter. *)
Lemma handleSubmit_session b st :
  let st' := fst (handleSubmit b st) in
  (streamSessionId st' = streamSessionId st
   /\ currentSessionRef st' = currentSessionRef st)
  \/ (streamSessionId st' = increment (streamSessionId st)
      /\ currentSessionRef st' = increment (streamSessionId st)).
Proof.
  unfold handleSubmit.
  destruct (negb (truthy (trim (message st))) || b); [left; split; reflexivity|].
  right. unfold reset. destruct st as [n msg resp pm status err cur pend raf setter fr next].
  destruct raf; simpl; split; reflexivity.
Qed.

(** No callback writes the session fields. *)
Lemma runCallback_session s cb st :
  streamSessionId (fst (runCallback s cb st)) = streamSessionId st
  /\ currentSessionRef (fst (runCallback s cb st)) = currentSessionRef st.
Proof.
  destruct st as [n msg resp pm status err cur pend raf setter fr next].
  destruct cb; simpl; unfold stale; simpl;
    destruct (negb (cur =? s)); simpl; try (split; reflexivity);
    unfold addToken; simpl; destruct raf; simpl; split; reflexivity.
Qed.

Lemma step_session a st :
  let st' := fst (step a st) in
  (streamSessionId st' = streamSessionId st
   /\ currentSessionRef st' = currentSessionRef st)
  \/ (streamSessionId st' = increment (streamSessionId st)
      /\ currentSessionRef st' = increment (streamSessionId st)).
Proof.
  destruct a as [b|v|s cb|h]; simpl.
  - apply handleSubmit_session.
  - left. split; reflexivity.
  - left. apply runCallback_session.
  - left. destruct (existsb (Nat.eqb h) (frameRequests st)); [|split; reflexivity].
    destruct st as [n msg resp pm status err cur pend raf setter fr next].
    unfold flush. simpl. destruct setter as [[]|]; simpl;
      [destruct (truthy pend); simpl|]; split; reflexivity.
Qed.

(** Once the ref holds the counter, it keeps holding it, and the counter
    never goes down. *)
Lemma run_session tr : forall st,
  currentSessionRef st = streamSessionId st ->
  currentSessionRef (run tr st) = streamSessionId (run tr st)
  /\ streamSessionId st <= streamSessionId (run tr st).
Proof.
  induction tr as [|a tr IH]; intros st H; simpl.
  - split; [assumption | lia].
  - destruct (step_session a st) as [[E1 E2] | [E1 E2]].
    + destruct (IH (fst (step a st))) as [K1 K2]; [congruence|].
      split; [assumption | lia].
    + destruct (IH (fst (step a st))) as [K1 K2]; [congruence|].
      split; [assumption|]. pose proof (increment_le (streamSessionId st)). lia.
Qed.

(** A callback whose session is no longer the current one leaves
    everything as it is and asks for nothing but a log line. *)
Lemma runCallback_stale s cb st :
  currentSessionRef st <> s ->
  fst (runCallback s cb st) = st
  /\ forall r, In r (snd (runCallback s cb st)) -> exists text, r = Console text.
Proof.
  intros H. assert (E : stale s st = true).
  { unfold stale. apply negb_true_iff, Z.eqb_neq, H. }
  destruct cb; simpl; rewrite ?E; simpl; split; try reflexivity;
    intros r Hr; simpl in Hr; try contradiction;
    destruct Hr as [<- | Hr]; try contradiction; eauto.
Qed.

End ChatView.

(** C10. When the trimmed message is empty or [isStreaming] is true,
    [handleSubmit] returns with the whole state as it was (session
    counter, batcher and displayed response included) and without
    calling [streamMessage]. *)
Theorem handleSubmit_early_return :
  forall (isStreaming : bool) (st : ChatInterface.State),
    truthy (trim (ChatInterface.message st)) = false \/ isStreaming = true ->
    ChatInterface.handleSubmit isStreaming st = (st, []).
Proof.
  intros b st [H | H]; unfold ChatInterface.handleSubmit; rewrite H.
  - reflexivity.
  - rewrite orb_true_r. reflexivity.
Qed.

(** C1. Session isolation. Take a call of [handleSubmit] that starts a
    stream with session [s1], let anything happen, and take a later call
    that starts another stream while the counter is still in the range
    where incrementing is exact. From then on, whatever else has
    happened, every callback of session [s1] leaves the state as it
    finds it and asks only for log lines; this covers the part of
    [onComplete] after its [await], and the timers. The second call
    also empties the batcher and cancels the frame request the first
    session's tokens had made. *)
Theorem session_isolation :
  forall (st0 st1 st2 : ChatInterface.State) (b1 b2 : bool)
         (m1 m2 : jsstring) (s1 s2 : Z)
         (tr tr' : list ChatInterface.Action) (cb : ChatInterface.Callback),
    ChatInterface.handleSubmit b1 st0 = (st1, [ChatInterface.StreamMessage m1 s1]) ->
    (ChatInterface.streamSessionId (ChatInterface.run tr st1)
       < ChatInterface.EXACT_LIMIT)%Z ->
    ChatInterface.handleSubmit b2 (ChatInterface.run tr st1)
      = (st2, [ChatInterface.StreamMessage m2 s2]) ->
    let st3 := ChatInterface.run tr' st2 in
    (fst (ChatInterface.runCallback s1 cb st3) = st3
     /\ forall r, In r (snd (ChatInterface.runCallback s1 cb st3)) ->
                  exists text, r = ChatInterface.Console text)
    /\ ChatInterface.pendingTokens st2 = []
    /\ ChatInterface.rafId st2 = None
    /\ (forall h, ChatInterface.rafId (ChatInterface.run tr st1) = Some h ->
                  ~ In h (ChatInterface.frameRequests st2)).
Proof.
  intros st0 st1 st2 b1 b2 m1 m2 s1 s2 tr tr' cb H1 Hlim H2 st3.
  apply handleSubmit_started in H1 as (_ & C1 & R1 & _).
  apply handleSubmit_started in H2 as (E2 & C2 & R2 & _ & P2 & F2 & G2).
  destruct (run_session tr st1) as [_ M1]; [congruence|].
  destruct (run_session tr' st2) as [J3 M3]; [congruence|].
  pose proof (increment_lt Hlim) as L.
  split; [|repeat split; assumption].
  apply runCallback_stale. fold st3 in J3, M3. lia.
Qed.

Section TokenBatching.

Import ChatInterface.
Local Open Scope Z_scope.

Lemma truthy_app_nil (a b : jsstring) :
  truthy (a ++ b) = false -> a = [] /\ b = [].
Proof. destruct a; [destruct b|]; simpl; intros; try discriminate; auto. Qed.





End TokenBatching.


(* ================================================================== *)
(** * The statements at concrete inputs *)
(* ================================================================== *)

(** The counter model agrees with floating-point addition at the limit
    of exactness. *)
Example increment_at_limit :
  ChatInterface.increment ChatInterface.EXACT_LIMIT = ChatInterface.EXACT_LIMIT
  /\ PrimFloat.eqb (9007199254740992 + 1) 9007199254740992 = true
  /\ PrimFloat.eqb (9007199254740991 + 1) 9007199254740992 = true.
Proof. repeat split; vm_compute; reflexivity. Qed.

(** A two-byte character cut between two chunks, and a frame cut inside
    its data line, decode as in one chunk. *)
Example chunk_split_sample :
  StreamingChatClient.processStream sampleParse
    {| StreamingChatClient.chunks :=
         [bytes "data: {'type':'tok"; bytes ("en','data':'Hi','timestamp':'t'}" ++ nl);
          bytes nl];
       StreamingChatClient.ending := StreamingChatClient.Done |} allHandlers
  = ([Invoke (OnToken (VStr (str "Hi")))], StreamingChatClient.Resolved)
  /\ TextDecoder.decode
       (fst (TextDecoder.decode TextDecoder.create [xc3])) [xa9]
     = ({| TextDecoder.utf8 := TextDecoder.utf8_initial;
           TextDecoder.BOM_seen := true |}, [233%N]).
Proof. split; vm_compute; reflexivity. Qed.

(** A submission with a non-blank message and no stream in progress
    goes on to [streamMessage] with the trimmed message and the
    incremented counter. *)
Lemma handleSubmit_starts (st : ChatInterface.State) :
  truthy (trim (ChatInterface.message st)) = true ->
  ChatInterface.handleSubmit false st =
    (fst (ChatInterface.handleSubmit false st),
     [ChatInterface.StreamMessage (trim (ChatInterface.message st))
        (ChatInterface.increment (ChatInterface.streamSessionId st))]).
Proof.
  intros H. unfold ChatInterface.handleSubmit. rewrite H.
  cbn [negb orb fst]. reflexivity.
Qed.

Lemma session_isolation_witness :
  let st0 := ChatInterface.setMessage (str "first") ChatInterface.initial in
  let st1 := fst (ChatInterface.handleSubmit false st0) in
  let tr := [ChatInterface.Call 1 (ChatInterface.Token (str "a"));
             ChatInterface.Call 1 ChatInterface.CompleteBegin;
             ChatInterface.Change (str "second")] in
  let st2 := fst (ChatInterface.handleSubmit false (ChatInterface.run tr st1)) in
  let st3 := ChatInterface.run [ChatInterface.Call 2 (ChatInterface.Token (str "b"))] st2 in
  ChatInterface.handleSubmit false st0
    = (st1, [ChatInterface.StreamMessage (str "first") 1])
  /\ (ChatInterface.streamSessionId (ChatInterface.run tr st1)
        < ChatInterface.EXACT_LIMIT)%Z
  /\ ChatInterface.handleSubmit false (ChatInterface.run tr st1)
     = (st2, [ChatInterface.StreamMessage (str "second") 2])
  /\ fst (ChatInterface.runCallback 1 ChatInterface.CompleteResume st3) = st3.
Proof.
  intros st0 st1 tr st2 st3.
  pose (H1 := handleSubmit_starts st0 eq_refl
        : ChatInterface.handleSubmit false st0
          = (st1, [ChatInterface.StreamMessage (str "first") 1])).
  pose (L := eq_refl
        : (ChatInterface.streamSessionId (ChatInterface.run tr st1)
             < ChatInterface.EXACT_LIMIT)%Z).
  pose (H2 := handleSubmit_starts (ChatInterface.run tr st1) eq_refl
        : ChatInterface.handleSubmit false (ChatInterface.run tr st1)
          = (st2, [ChatInterface.StreamMessage (str "second") 2])).
  split; [exact H1|]. split; [exact L|]. split; [exact H2|].
  exact (proj1 (proj1 (@session_isolation st0 st1 st2 false false _ _ 1%Z 2%Z tr
                         [ChatInterface.Call 2 (ChatInterface.Token (str "b"))]
                         ChatInterface.CompleteResume H1 L H2))).
Defined.


Lemma handleSubmit_early_return_witness :
  let st := ChatInterface.setMessage (str "again") ChatInterface.initial in
  (truthy (trim (ChatInterface.message st)) = false \/ true = true)
  /\ ChatInterface.handleSubmit true st = (st, []).
Proof.
  intros st.
  assert (H : truthy (trim (ChatInterface.message st)) = false \/ true = true)
    by (right; reflexivity).
  split; [exact H|]. exact (@handleSubmit_early_return true st H).
Defined.

Lemma sources_event_dropped_witness :
  lookup (str "type")
    [(str "type", VStr (str "sources")); (str "data", VArr []);
     (str "timestamp", VStr (str "t"))]
    = VStr (str StreamEventType.SOURCES)
  /\ StreamingChatClient.handleEvent (mkEvent "sources" (VArr []) (str "t"))
       allHandlers
     = Some [ConsoleWarn (VStr (str "sources"))].
Proof.
  assert (H : lookup (str "type")
                [(str "type", VStr (str "sources")); (str "data", VArr []);
                 (str "timestamp", VStr (str "t"))]
              = VStr (str StreamEventType.SOURCES))
    by (vm_compute; reflexivity).
  split; [exact H|]. exact (proj1 (@sources_event_dropped _ allHandlers H)).
Defined.

Lemma malformed_frame_resilience_witness :
  let body := bodyOf [(tokenLine ++ nl ++ nl ++ "data: {bad" ++ nl)%string;
                      (nl ++ completeLine ++ nl ++ nl)%string] in
  streamLines (decoded body)
    = [json tokenLine] ++ str "data: {bad" :: [json completeLine]
  /\ startsWith (str "data: ") (str "data: {bad") = true
  /\ sampleParse (substring 6 (str "data: {bad")) = None
  /\ StreamingChatClient.processStream sampleParse body allHandlers
     = ([Invoke (OnToken (VStr (str "Hi"))); ConsoleError (str "{bad");
         Invoke (OnComplete VNull)],
        StreamingChatClient.Resolved).
Proof.
  intros body.
  assert (H1 : streamLines (decoded body)
               = [json tokenLine] ++ str "data: {bad" :: [json completeLine])
    by (vm_compute; reflexivity).
  assert (H2 : startsWith (str "data: ") (str "data: {bad") = true)
    by (vm_compute; reflexivity).
  assert (H3 : sampleParse (substring 6 (str "data: {bad")) = None)
    by (vm_compute; reflexivity).
  split; [exact H1|]. split; [exact H2|]. split; [exact H3|].
  pose proof (@malformed_frame_resilience sampleParse allHandlers body _ _ _ H1 H2 H3) as W.
  vm_compute in W. vm_compute. exact W.
Defined.

Lemma comment_lines_ignored_witness :
  let bodyA := bodyOf [(tokenLine ++ nl ++ nl ++ ": hb" ++ nl ++ nl
                          ++ completeLine ++ nl ++ nl)%string] in
  let bodyB := bodyOf [(tokenLine ++ nl ++ nl ++ completeLine ++ nl ++ nl)%string] in
  let s1 := json tokenLine ++ [LF; LF] in
  let s2 := json completeLine ++ [LF; LF] in
  decoded bodyA = s1 ++ str ": hb" ++ LF :: LF :: s2
  /\ decoded bodyB = s1 ++ s2
  /\ leftover s1 = []
  /\ startsWith (str ":") (str ": hb") = true
  /\ noLF (str ": hb") = true
  /\ fst (StreamingChatClient.processStream sampleParse bodyA allHandlers)
     = fst (StreamingChatClient.processStream sampleParse bodyB allHandlers)
  /\ StreamingChatClient.processEvent sampleParse allHandlers
       (json tokenLine ++ LF :: str ": hb")
     = [Invoke (OnToken (VStr (str "Hi")))].
Proof.
  intros bodyA bodyB s1 s2.
  assert (HA : decoded bodyA = s1 ++ str ": hb" ++ LF :: LF :: s2)
    by (vm_compute; reflexivity).
  assert (HB : decoded bodyB = s1 ++ s2) by (vm_compute; reflexivity).
  assert (H1 : leftover s1 = []) by (vm_compute; reflexivity).
  assert (Hc : startsWith (str ":") (str ": hb") = true) by (vm_compute; reflexivity).
  assert (Hn : noLF (str ": hb") = true) by (vm_compute; reflexivity).
  split; [exact HA|]. split; [exact HB|]. split; [exact H1|].
  split; [exact Hc|]. split; [exact Hn|].
  pose proof (@comment_lines_ignored sampleParse allHandlers) as (_ & W2 & W3).
  split.
  - exact (W3 bodyA bodyB s1 (str ": hb") s2 HA HB H1 Hc Hn).
  - rewrite W2 by (vm_compute; reflexivity). vm_compute. reflexivity.
Defined.

Lemma end_of_stream_resolution_witness :
  let body := bodyOf [(completeLine ++ nl ++ nl ++ tokenLine ++ nl ++ nl
                         ++ tokenLine)%string] in
  let tr := StreamingChatClient.Response true 200 (str "OK") (Some body) in
  StreamingChatClient.settled
    (StreamingChatClient.streamMessage_finish sampleParse sampleNumber
       sampleClient allHandlers tr) = StreamingChatClient.Resolved
  /\ streamLines (decoded body) = [] ++ json completeLine :: [json tokenLine]
  /\ fst (StreamingChatClient.processStream sampleParse body allHandlers)
     = [Invoke (OnComplete VNull); Invoke (OnToken (VStr (str "Hi")))]
  /\ frames (leftover (json completeLine ++ LF :: LF :: json tokenLine ++ [LF; LF])
               ++ json tokenLine) = [].
Proof.
  intros body tr.
  pose proof (@end_of_stream_resolution sampleParse sampleNumber allHandlers
                sampleClient) as (W1 & W2 & W3).
  assert (Hl : streamLines (decoded body) = [] ++ json completeLine :: [json tokenLine])
    by (vm_compute; reflexivity).
  assert (Hf : frames (leftover (json completeLine ++ LF :: LF :: json tokenLine ++ [LF; LF])
                         ++ json tokenLine) = [])
    by (vm_compute; reflexivity).
  split; [|split; [exact Hl | split; [|exact Hf]]].
  - apply W1. exists 200%float, (str "OK"), body. split; reflexivity.
  - rewrite (W3 body (json completeLine ++ LF :: LF :: json tokenLine ++ [LF; LF])
               (json tokenLine)); [vm_compute; reflexivity | vm_compute; reflexivity | exact Hf].
Defined.

Lemma abort_silence_witness :
  let c := StreamingChatClient.streamMessage_begin 1 sampleClient in
  let tr := StreamingChatClient.Response true 200 (str "OK")
              (Some {| StreamingChatClient.chunks := [bytes (tokenLine ++ nl ++ nl)];
                       StreamingChatClient.ending :=
                         StreamingChatClient.ReadCancelled
                           StreamingChatClient.ManualAbort |}) in
  cancelledBy StreamingChatClient.ManualAbort tr = true
  /\ StreamingChatClient.isStreaming c = true
  /\ StreamingChatClient.isStreaming (fst (StreamingChatClient.abort c)) = false
  /\ StreamingChatClient.effects
       (StreamingChatClient.streamMessage_finish sampleParse sampleNumber
          (fst (StreamingChatClient.abort c)) allHandlers tr)
     = [Invoke (OnToken (VStr (str "Hi"))); ConsoleLog "Stream aborted by user"].
Proof.
  intros c tr.
  assert (H : cancelledBy StreamingChatClient.ManualAbort tr = true)
    by (vm_compute; reflexivity).
  pose proof (@abort_silence sampleParse sampleNumber allHandlers c
                (fst (StreamingChatClient.abort c)) tr H) as (W1 & _ & W3 & _).
  split; [exact H|]. split; [vm_compute; reflexivity|]. split; [exact W1|].
  rewrite W3. vm_compute. reflexivity.
Defined.

Lemma timeout_classification_witness :
  let c := StreamingChatClient.streamMessage_begin 1 sampleClient in
  let tr := StreamingChatClient.FetchCancelled StreamingChatClient.Timeout in
  In StreamingChatClient.Timeout (StreamingChatClient.signalSources modernRuntime c)
  /\ cancelledBy StreamingChatClient.Timeout tr = true
  /\ StreamingChatClient.effects
       (StreamingChatClient.streamMessage_finish sampleParse sampleNumber
          c allHandlers tr)
     = [Invoke (OnError
          (StreamingChatClient.errorPayload
             (str "Request timed out after 30 seconds") "TIMEOUT" true))].
Proof.
  intros c tr.
  assert (H1 : In StreamingChatClient.Timeout
                 (StreamingChatClient.signalSources modernRuntime c))
    by (vm_compute; right; left; reflexivity).
  assert (H2 : cancelledBy StreamingChatClient.Timeout tr = true) by reflexivity.
  split; [exact H1|]. split; [exact H2|].
  pose proof (@timeout_classification sampleParse sampleNumber allHandlers
                modernRuntime c tr H1 H2) as (_ & W & _).
  rewrite W. vm_compute. reflexivity.
Defined.

(* ================================================================== *)
(** * Further properties of the client *)
(* ================================================================== *)

Lemma eqb_eq (a b : jsstring) : JsString.eqb a b = true <-> a = b.
Proof.
  revert b. induction a as [|x a IH]; intros [|y b]; simpl; split;
    try discriminate; try reflexivity.
  - intros H. apply andb_prop in H as [H1 H2].
    apply N.eqb_eq in H1. apply IH in H2. congruence.
  - intros H. injection H as -> ->. rewrite N.eqb_refl. apply IH. reflexivity.
Qed.

Lemma eqb_refl (a : jsstring) : JsString.eqb a a = true.
Proof. apply eqb_eq. reflexivity. Qed.

Section ClientFailures.

Import StreamingChatClient.

Variable JSON_parse : jsstring -> option JsValue.
Variable Number_toString : float -> jsstring.
Variable handlers : StreamEventHandlers.

(** The [catch] for an [Error] that is neither an abort nor a timeout. *)
Lemma catchBlock_client_error c msg :
  catchBlock Number_toString c handlers (newError msg) =
    if onError handlers
    then [Invoke (OnError (errorPayload msg "CLIENT_ERROR" false))]
    else [].
Proof. reflexivity. Qed.

End ClientFailures.

(** X1. A response that is not ok, or has no body, is a client error: no
    chunk of a body is read, [onError] (if supplied) is called once with
    code ['CLIENT_ERROR'], not recoverable, carrying the message of the
    error thrown, and the promise rejects with that error. *)
Theorem http_failure_reported :
  forall (JSON_parse : jsstring -> option JsValue)
         (Number_toString : float -> jsstring)
         (handlers : StreamEventHandlers) (c : StreamingChatClient.t)
         (ok : bool) (status : float) (statusText : jsstring)
         (body : option StreamingChatClient.Body),
    ok = false \/ body = None ->
    let msg :=
      if ok then str "Response body is null"
      else str "HTTP " ++ Number_toString status ++ str ": " ++ statusText in
    let run :=
      StreamingChatClient.streamMessage_finish JSON_parse Number_toString c
        handlers (StreamingChatClient.Response ok status statusText body) in
    StreamingChatClient.effects run =
      (if onError handlers
       then [Invoke (OnError
               (StreamingChatClient.errorPayload msg "CLIENT_ERROR" false))]
       else [])
    /\ StreamingChatClient.settled run
       = StreamingChatClient.Rejected (newError msg)
    /\ StreamingChatClient.isStreaming (StreamingChatClient.after run) = false.
Proof.
  intros parse nts h c ok status statusText body H msg run.
  subst run msg. unfold StreamingChatClient.streamMessage_finish.
  destruct ok.
  - destruct H as [H | ->]; [discriminate|]. simpl.
    repeat split.
  - simpl. repeat split.
Qed.

(** X2. Whatever is thrown, the [catch] of [streamMessage] calls at most
    one handler, only ever [onError], and none at all for an abort, for
    a value that is not an [Error], or when [onError] was left out; the
    promise rejects with what was thrown and the controller is
    cleared. *)
Theorem catch_calls_at_most_onError :
  forall (Number_toString : float -> jsstring)
         (handlers : StreamEventHandlers) (c : StreamingChatClient.t)
         (e : JsError),
    let effs := StreamingChatClient.catchBlock Number_toString c handlers e in
    List.length (handlerCalls effs) <= 1
    /\ filter isOnError effs = handlerCalls effs
    /\ (onError handlers = false -> handlerCalls effs = [])
    /\ (JsError.instanceofError e = false -> effs = [])
    /\ (JsError.instanceofError e = true ->
        JsError.name e = str "AbortError" -> handlerCalls effs = []).
Proof.
  intros nts h c e effs. subst effs. unfold StreamingChatClient.catchBlock.
  destruct (JsError.instanceofError e).
  - destruct (JsString.eqb (JsError.name e) (str "AbortError")) eqn:A.
    + simpl. repeat split; auto; discriminate.
    + destruct (JsString.eqb (JsError.name e) (str "TimeoutError"));
        destruct (onError h); simpl; repeat split; auto; try discriminate;
        intros _ N; rewrite N in A; discriminate.
  - simpl. repeat split; auto; discriminate.
Qed.

(** X3. When a call settles after a later call has begun, its [finally]
    clears the controller the later call installed: [isStreaming()] is
    false although the later stream is in flight, and [abort()] no
    longer fires any controller. *)
Theorem settled_call_clears_newer_controller :
  forall (JSON_parse : jsstring -> option JsValue)
         (Number_toString : float -> jsstring)
         (handlers : StreamEventHandlers) (c : StreamingChatClient.t)
         (k1 k2 : nat) (tr : StreamingChatClient.Transport),
    let c1 := StreamingChatClient.streamMessage_begin k1 c in
    let c2 := StreamingChatClient.streamMessage_begin k2 c1 in
    let c3 := StreamingChatClient.after
                (StreamingChatClient.streamMessage_finish JSON_parse
                   Number_toString c2 handlers tr) in
    snd (StreamingChatClient.abort c1) = Some k1
    /\ StreamingChatClient.abortController c2 = Some k2
    /\ StreamingChatClient.isStreaming c2 = true
    /\ StreamingChatClient.isStreaming c3 = false
    /\ StreamingChatClient.abort c3 = (c3, None).
Proof.
  intros parse nts h c k1 k2 tr c1 c2 c3.
  assert (E : c3 = {| StreamingChatClient.config := StreamingChatClient.config c2;
                      StreamingChatClient.abortController := None |}).
  { subst c3. unfold StreamingChatClient.streamMessage_finish.
    destruct (StreamingChatClient.tryBlock parse nts h tr) as [effs [|e]];
      reflexivity. }
  rewrite E. repeat split.
Qed.

(** X4. [abort()] is idempotent: a second call fires no controller and
    changes nothing, and so does a call when no stream is active. *)
Theorem abort_idempotent :
  forall (c : StreamingChatClient.t),
    StreamingChatClient.abort (fst (StreamingChatClient.abort c))
      = (fst (StreamingChatClient.abort c), None)
    /\ (StreamingChatClient.isStreaming c = false ->
        StreamingChatClient.abort c = (c, None)).
Proof.
  intros [cfg [k|]]; unfold StreamingChatClient.abort; simpl; split;
    try reflexivity; discriminate.
Qed.

(** X5. A client built by [useStreamingChat] from a configuration without a
    usable [timeout] has [timeout: undefined], not the default: on every
    runtime its signal has the manual abort as its only source, so no
    timeout is ever enforced. A client constructed from a configuration
    object that has no [timeout] property gets the default of 30000 ms,
    which a runtime with [AbortSignal.any] and [AbortSignal.timeout]
    arms. *)
Theorem hook_client_has_no_timeout :
  forall (rt : StreamingChatClient.Runtime)
         (config : StreamingChatClient.StreamingClientConfig) (k : nat),
    StreamingChatClient.timeout config = None
    \/ StreamingChatClient.timeout config = Some None ->
    StreamingChatClient.cfg_timeout
      (StreamingChatClient.config
         (StreamingChatClient.create (hookConfig config))) = None
    /\ StreamingChatClient.signalSources rt
         (StreamingChatClient.streamMessage_begin k
            (StreamingChatClient.create (hookConfig config)))
       = [StreamingChatClient.ManualAbort]
    /\ (StreamingChatClient.timeout config = None ->
        StreamingChatClient.signalSources modernRuntime
          (StreamingChatClient.streamMessage_begin k
             (StreamingChatClient.create config))
        = [StreamingChatClient.ManualAbort; StreamingChatClient.Timeout]).
Proof.
  intros rt config k H.
  assert (T : StreamingChatClient.cfg_timeout
                (StreamingChatClient.config
                   (StreamingChatClient.create (hookConfig config))) = None).
  { unfold StreamingChatClient.create, hookConfig. simpl.
    destruct H as [-> | ->]; reflexivity. }
  split; [exact T|]. split.
  - unfold StreamingChatClient.signalSources.
    change (StreamingChatClient.config
              (StreamingChatClient.streamMessage_begin k
                 (StreamingChatClient.create (hookConfig config))))
      with (StreamingChatClient.config
              (StreamingChatClient.create (hookConfig config))).
    rewrite T. unfold StreamingChatClient.timeoutAccepts.
    rewrite !andb_false_r. reflexivity.
  - intros E. unfold StreamingChatClient.signalSources,
      StreamingChatClient.streamMessage_begin, StreamingChatClient.create.
    simpl. rewrite E. reflexivity.
Qed.

(** ** The dispatcher *)

Section Dispatcher.

Import StreamingChatClient.

Variable handlers : StreamEventHandlers.

(** [handleEvent] on a value that is not [null] or [undefined], with the
    property reads carried out. *)
Lemma handleEvent_table (event : JsValue) :
  nullish event = false ->
  handleEvent event handlers =
    let ty := prop event "type" in
    let d := prop event "data" in
    if strictEq ty StreamEventType.TOKEN then
      optCall (onToken handlers) (Some (OnToken d))
    else if strictEq ty StreamEventType.STATUS then
      optCall (onStatus handlers)
        (if nullish d then None
         else Some (OnStatus (prop d "status") (prop d "message")))
    else if strictEq ty StreamEventType.PROGRESS then
      optCall (onProgress handlers) (Some (OnProgress d))
    else if strictEq ty StreamEventType.COMPLETE then
      optCall (onComplete handlers) (Some (OnComplete d))
    else if strictEq ty StreamEventType.ERROR then
      optCall (onError handlers) (Some (OnError d))
    else if strictEq ty StreamEventType.METADATA then
      optCall (onMetadata handlers) (Some (OnMetadata d))
    else Some [ConsoleWarn ty].
Proof.
  intros H. destruct event; try discriminate; try reflexivity.
  unfold handleEvent, prop.
  change (getProp (VObj fields) "type") with (Some (lookup (str "type") fields)).
  change (getProp (VObj fields) "data") with (Some (lookup (str "data") fields)).
  cbv zeta. unfold bind at 1.
  destruct (strictEq (lookup (str "type") fields) StreamEventType.TOKEN);
    [reflexivity|].
  destruct (strictEq (lookup (str "type") fields) StreamEventType.STATUS).
  - f_equal. unfold bind. destruct (lookup (str "data") fields); reflexivity.
  - reflexivity.
Qed.


Lemma optCall_some present call effs :
  optCall present (Some call) = Some effs ->
  effs = if present then [Invoke call] else [].
Proof. unfold optCall. destruct present; intros H; injection H as <-; reflexivity. Qed.

End Dispatcher.


(** X7. An event leads to at most one effect: the call of the one handler
    that matches its type, or the warning for an unknown type; when
    every handler is supplied it leads to exactly one. *)
Theorem handleEvent_one_effect :
  forall (event : JsValue) (handlers : StreamEventHandlers)
         (effs : list Effect),
    StreamingChatClient.handleEvent event handlers = Some effs ->
    List.length effs <= 1
    /\ (allSupplied handlers = true -> List.length effs = 1).
Proof.
  intros event h effs H.
  destruct (nullish event) eqn:Hn.
  - destruct event; discriminate.
  - rewrite (handleEvent_table h event Hn) in H. cbv zeta in H.
    assert (A : allSupplied h = true ->
                onToken h = true /\ onStatus h = true /\ onProgress h = true
                /\ onComplete h = true /\ onError h = true
                /\ onMetadata h = true).
    { unfold allSupplied. intros X.
      repeat (apply andb_prop in X as [X ?]). auto 10. }
    repeat match type of H with
           | (if ?b then _ else _) = Some _ => destruct b
           end;
      try (injection H as <-; simpl; split; [lia | reflexivity]);
      unfold StreamingChatClient.optCall in H;
      repeat match type of H with
             | (if ?b then _ else _) = Some _ => destruct b eqn:?
             | context [if ?b then _ else _] => destruct b eqn:?
             end;
      try discriminate; injection H as <-; simpl; split; try lia;
      intros X; apply A in X; intuition congruence.
Qed.

(** ** More on the frame decoder *)

Lemma hasBlank_cons2 x y l :
  hasBlank (x :: y :: l) = (N.eqb x LF && N.eqb y LF) || hasBlank (y :: l).
Proof. reflexivity. Qed.

Lemma frames_consHead c parts :
  parts <> [] -> (fst (pop (consHead c parts)) = [] <-> fst (pop parts) = []).
Proof.
  intros H. rewrite pop_consHead by assumption.
  destruct (fst (pop parts)); simpl; split; try discriminate; reflexivity.
Qed.

Lemma frames_nil_iff (s : jsstring) : frames s = [] <-> hasBlank s = false.
Proof.
  unfold frames.
  induction s as [| x | x y l IHl IHyl] using jsstring_ind2;
    try (split; reflexivity).
  rewrite splitBlank_cons2, hasBlank_cons2.
  destruct (N.eqb x LF && N.eqb y LF).
  - rewrite pop_cons by apply splitBlank_nonempty. simpl.
    split; discriminate.
  - rewrite frames_consHead by apply splitBlank_nonempty. exact IHyl.
Qed.

Lemma joinFrames_app a b : joinFrames (a ++ b) = joinFrames a ++ joinFrames b.
Proof. apply flat_map_app. Qed.

Lemma joinFrames_consHead c parts :
  parts <> [] ->
  joinFrames (fst (pop (consHead c parts))) ++ snd (pop (consHead c parts))
  = c :: (joinFrames (fst (pop parts)) ++ snd (pop parts)).
Proof.
  intros H. rewrite pop_consHead by assumption.
  destruct (fst (pop parts)); reflexivity.
Qed.

(** Splitting loses nothing: the frames, each followed by a blank line,
    and then the leftover, are the text. *)
Lemma split_join (s : jsstring) : joinFrames (frames s) ++ leftover s = s.
Proof.
  unfold frames, leftover.
  induction s as [| x | x y l IHl IHyl] using jsstring_ind2;
    try reflexivity.
  rewrite splitBlank_cons2.
  destruct (N.eqb x LF && N.eqb y LF) eqn:E.
  - rewrite pop_cons by apply splitBlank_nonempty. simpl.
    rewrite IHl. apply andb_prop in E as [Ex Ey].
    apply N.eqb_eq in Ex, Ey. subst. reflexivity.
  - rewrite joinFrames_consHead by apply splitBlank_nonempty.
    rewrite IHyl. reflexivity.
Qed.

(** X9. A stream whose text never holds two consecutive line feeds (one
    that ends its lines with CR LF, for one) dispatches nothing, however
    long it is: all of its text stays in the buffer and is dropped at
    the end. Conversely any text with a blank line has a frame. *)
Theorem no_blank_line_no_frames :
  forall (JSON_parse : jsstring -> option JsValue)
         (handlers : StreamEventHandlers) (cs : list (list byte)),
    let text := snd (TextDecoder.decode TextDecoder.create (List.concat cs)) in
    let loop := StreamingChatClient.readAll JSON_parse handlers
                  StreamingChatClient.start cs in
    (hasBlank text = false ->
     snd loop = [] /\ StreamingChatClient.buffer (fst loop) = text)
    /\ (hasBlank text = true -> frames text <> []).
Proof.
  intros parse h cs text loop. subst loop.
  rewrite readAll_concat by reflexivity. cbv zeta. simpl.
  fold text. split.
  - intros H. apply frames_nil_iff in H. unfold dispatchFrames. rewrite H.
    split; [reflexivity | apply frames_nil_leftover, H].
  - intros H F. apply frames_nil_iff in F. congruence.
Qed.

(** X10. After any chunks, what [processStream] has dispatched are the
    complete frames of the text decoded so far, the buffer is the text
    after the last blank line and holds no blank line itself, and the
    frames and the buffer together make up the whole text: nothing is
    lost, repeated or held back longer than to the end of its frame. *)
Theorem buffer_is_text_after_last_blank_line :
  forall (JSON_parse : jsstring -> option JsValue)
         (handlers : StreamEventHandlers) (cs : list (list byte)),
    let text := snd (TextDecoder.decode TextDecoder.create (List.concat cs)) in
    let loop := StreamingChatClient.readAll JSON_parse handlers
                  StreamingChatClient.start cs in
    snd loop = dispatchFrames JSON_parse handlers text
    /\ StreamingChatClient.buffer (fst loop) = leftover text
    /\ hasBlank (StreamingChatClient.buffer (fst loop)) = false
    /\ joinFrames (frames text) ++ StreamingChatClient.buffer (fst loop) = text.
Proof.
  intros parse h cs text loop. subst loop.
  rewrite readAll_concat by reflexivity. cbv zeta. simpl. fold text.
  split; [reflexivity|]. split; [reflexivity|]. split.
  - apply frames_nil_iff, frames_leftover.
  - apply split_join.
Qed.

(** ASCII bytes read by a decoder that is between characters come out as
    they are, and leave the decoder between characters. *)
Lemma feed_ascii d b :
  TextDecoder.bytes_needed (TextDecoder.utf8 d) = 0%N ->
  N.ltb (Byte.to_N b) 128 = true ->
  TextDecoder.feed d b =
    ({| TextDecoder.utf8 := TextDecoder.utf8 d; TextDecoder.BOM_seen := true |},
     [Byte.to_N b]).
Proof.
  intros Hn Hb. apply N.ltb_lt in Hb.
  unfold TextDecoder.feed, TextDecoder.utf8_handler. rewrite Hn. simpl N.eqb.
  cbv iota. unfold TextDecoder.utf8_lead.
  assert (B : TextDecoder.between 0 127 (Byte.to_N b) = true).
  { unfold TextDecoder.between. apply andb_true_intro. split; apply N.leb_le; lia. }
  rewrite B. simpl TextDecoder.serialize.
  assert (F : N.eqb (Byte.to_N b) 65279 = false) by (apply N.eqb_neq; lia).
  rewrite F, andb_false_r.
  unfold TextDecoder.codeUnits.
  assert (L : N.ltb (Byte.to_N b) 65536 = true) by (apply N.ltb_lt; lia).
  rewrite L. reflexivity.
Qed.

Lemma decode_ascii bs : forall d,
  TextDecoder.bytes_needed (TextDecoder.utf8 d) = 0%N ->
  TextDecoder.BOM_seen d = true ->
  isAscii bs = true ->
  TextDecoder.decode d bs = (d, asciiText bs).
Proof.
  induction bs as [|b bs IH]; intros d Hn Hs Ha; [reflexivity|].
  simpl in Ha. apply andb_prop in Ha as [Hb Hbs].
  simpl TextDecoder.decode. rewrite feed_ascii by assumption.
  assert (E : {| TextDecoder.utf8 := TextDecoder.utf8 d;
                 TextDecoder.BOM_seen := true |} = d)
    by (destruct d; simpl in *; congruence).
  rewrite E, IH by assumption. reflexivity.
Qed.

(** X11. A heartbeat arriving as a chunk of its own, a comment line in ASCII
    followed by a blank line, while the buffer is empty and the decoder
    is between characters: the turn of the loop dispatches nothing and
    leaves the decoder and the buffer exactly as they were. *)
Theorem heartbeat_chunk_is_inert :
  forall (JSON_parse : jsstring -> option JsValue)
         (handlers : StreamEventHandlers) (l : StreamingChatClient.Loop)
         (comment : list byte),
    StreamingChatClient.buffer l = [] ->
    TextDecoder.bytes_needed (TextDecoder.utf8 (StreamingChatClient.decoder l)) = 0%N ->
    TextDecoder.BOM_seen (StreamingChatClient.decoder l) = true ->
    isAscii comment = true ->
    startsWith (str ":") (asciiText comment) = true ->
    noLF (asciiText comment) = true ->
    StreamingChatClient.onChunk JSON_parse handlers l (comment ++ [x0a; x0a])
      = (l, []).
Proof.
  intros parse h l comment Hb Hn Hs Ha Hc Hl.
  rewrite onChunk_eq. cbv zeta.
  assert (A : isAscii (comment ++ [x0a; x0a]) = true).
  { unfold isAscii. rewrite forallb_app. fold (isAscii comment). rewrite Ha.
    reflexivity. }
  rewrite decode_ascii by assumption. simpl fst. simpl snd.
  rewrite Hb. simpl app.
  assert (T : asciiText (comment ++ [x0a; x0a]) = asciiText comment ++ LF :: LF :: []).
  { unfold asciiText. rewrite map_app. reflexivity. }
  rewrite T. unfold leftover, frames, dispatchFrames, frames.
  rewrite splitBlank_line by assumption. simpl.
  unfold StreamingChatClient.processEvent. rewrite Hc.
  destruct (negb (truthy (trim (asciiText comment)))); simpl;
    destruct l; simpl in *; subst; reflexivity.
Qed.

Section Counting.

Import StreamingChatClient.

Variable JSON_parse : jsstring -> option JsValue.
Variable handlers : StreamEventHandlers.



End Counting.


(* ================================================================== *)
(** * Further properties of the chat view *)
(* ================================================================== *)

Section ViewInvariants.

Import ChatInterface.
Local Open Scope Z_scope.



Lemma cancel_single h : cancelAnimationFrame h [h] = [].
Proof. unfold cancelAnimationFrame. simpl. rewrite Nat.eqb_refl. reflexivity. Qed.

Lemma step_consistent a st :
  batcherConsistent st -> batcherConsistent (fst (step a st)).
Proof.
  intros (Hf & Hp & Hs).
  destruct st as [n msg resp pm status err cur pend raf setter fr next].
  simpl in Hf, Hp, Hs. subst fr.
  destruct a as [b|v|s cb|h].
  - (* handleSubmit *)
    simpl. unfold handleSubmit. simpl.
    destruct (negb (truthy (trim msg)) || b); simpl.
    + repeat split; assumption.
    + unfold reset. simpl. destruct raf as [h|]; simpl;
        unfold batcherConsistent; simpl; rewrite ?Nat.eqb_refl;
        repeat split; auto; discriminate.
  - simpl. repeat split; assumption.
  - (* a callback *)
    destruct cb; simpl; unfold stale; simpl;
      destruct (negb (cur =? s)); simpl; try (repeat split; assumption).
    unfold addToken. simpl.
    destruct raf as [h|]; simpl; unfold batcherConsistent; simpl;
      repeat split; auto; discriminate.
  - (* an animation frame *)
    simpl. destruct raf as [h0|]; simpl.
    + rewrite orb_false_r. destruct (Nat.eqb h h0) eqn:E.
      * apply Nat.eqb_eq in E. subst h0. rewrite ?Nat.eqb_refl.
        unfold flush. simpl.
        destruct (truthy pend) eqn:T.
        -- rewrite (Hs eq_refl). simpl.
           unfold batcherConsistent. simpl. repeat split; auto; discriminate.
        -- assert (pend = []) as -> by (destruct pend; [reflexivity|discriminate]).
           destruct setter as [[]|]; simpl; unfold batcherConsistent; simpl;
             repeat split; auto; discriminate.
      * repeat split; assumption.
    + repeat split; assumption.
Qed.

Lemma run_consistent tr : forall st,
  batcherConsistent st -> batcherConsistent (run tr st).
Proof.
  induction tr as [|a tr IH]; intros st H; [exact H|].
  simpl. apply IH, step_consistent, H.
Qed.

End ViewInvariants.


(** X13. Whatever happens to the view from its initial state, at most one
    animation frame is requested, it is the one the batcher remembers in
    [rafId], and text is pending only while that frame is requested: the
    batcher never schedules two flushes, never leaves a cancelled one
    behind, and never strands tokens without a flush to come. *)
Theorem at_most_one_flush_scheduled :
  forall (tr : list ChatInterface.Action),
    let st := ChatInterface.run tr ChatInterface.initial in
    ChatInterface.frameRequests st
      = match ChatInterface.rafId st with Some h => [h] | None => [] end
    /\ (ChatInterface.rafId st = None -> ChatInterface.pendingTokens st = [])
    /\ (truthy (ChatInterface.pendingTokens st) = true ->
        exists h, ChatInterface.rafId st = Some h
                  /\ ChatInterface.frameRequests st = [h]).
Proof.
  intros tr st.
  assert (I : batcherConsistent st).
  { subst st. apply run_consistent. repeat split; auto; discriminate. }
  destruct I as (Hf & Hp & _). split; [exact Hf|]. split; [exact Hp|].
  intros T. destruct (ChatInterface.rafId st) as [h|] eqn:E.
  - exists h. split; [reflexivity | exact Hf].
  - rewrite (Hp eq_refl) in T. discriminate.
Qed.

(** X14. [onComplete] after its [await], and [onError], clear the display but
    leave the batcher alone: text still pending then is put on the
    cleared display when the frame already requested runs. *)
Theorem completion_does_not_cancel_flush :
  forall (st : ChatInterface.State) (s : Z) (h : nat)
         (cb : ChatInterface.Callback),
    ChatInterface.currentSessionRef st = s ->
    ChatInterface.setterRef st = Some ChatInterface.setStreamingResponse ->
    In h (ChatInterface.frameRequests st) ->
    cb = ChatInterface.CompleteResume
    \/ (exists msg, cb = ChatInterface.Error msg) ->
    let st1 := fst (ChatInterface.runCallback s cb st) in
    let st2 := fst (ChatInterface.step (ChatInterface.AnimationFrame h) st1) in
    ChatInterface.streamingResponse st1 = []
    /\ ChatInterface.pendingTokens st1 = ChatInterface.pendingTokens st
    /\ ChatInterface.streamingResponse st2 = ChatInterface.pendingTokens st
    /\ ChatInterface.pendingTokens st2 = [].
Proof.
  intros st s h cb Hc Hs Hin Hcb st1 st2.
  assert (X : existsb (Nat.eqb h) (ChatInterface.frameRequests st) = true).
  { apply existsb_exists. exists h. split; [exact Hin | apply Nat.eqb_refl]. }
  destruct st as [n msg resp pm status err cur pend raf setter fr next].
  simpl in Hc, Hs, X. subst cur setter. subst st2 st1.
  destruct Hcb as [-> | [m ->]]; simpl; unfold ChatInterface.stale; simpl;
    rewrite Z.eqb_refl; simpl; rewrite X; unfold ChatInterface.flush; simpl;
    destruct (truthy pend) eqn:T; simpl; repeat split; auto;
    destruct pend; try reflexivity; discriminate.
Qed.

(** ** Selected documents *)

Section Selection.

Import Documents.

Lemma existsb_eqb_In (i : jsstring) sel :
  existsb (JsString.eqb i) sel = true <-> In i sel.
Proof.
  rewrite existsb_exists. split.
  - intros (x & Hx & E). apply eqb_eq in E. subst. exact Hx.
  - intros H. exists i. split; [exact H | apply eqb_refl].
Qed.

Lemma filter_others (i : jsstring) sel :
  ~ In i sel -> filter (fun x => negb (JsString.eqb x i)) sel = sel.
Proof.
  induction sel as [|x sel IH]; intros H; [reflexivity|]. simpl.
  destruct (JsString.eqb x i) eqn:E.
  - apply eqb_eq in E. subst. exfalso. apply H. left. reflexivity.
  - simpl. rewrite IH; [reflexivity|]. intros K. apply H. right. exact K.
Qed.

End Selection.

(** X15. Toggling a document flips whether it is selected and touches no
    other document; a selection without repeats stays without repeats. *)
Theorem toggle_flips_membership :
  forall (documentId : jsstring) (selectedDocuments : list jsstring),
    let after := Documents.toggleDocumentSelection documentId selectedDocuments in
    (In documentId after <-> ~ In documentId selectedDocuments)
    /\ (forall other, other <> documentId ->
          (In other after <-> In other selectedDocuments))
    /\ (NoDup selectedDocuments -> NoDup after).
Proof.
  intros i sel after. subst after. unfold Documents.toggleDocumentSelection.
  destruct (existsb (JsString.eqb i) sel) eqn:E.
  - apply existsb_eqb_In in E. split; [|split].
    + split.
      * intros H. apply filter_In in H as [_ H]. rewrite eqb_refl in H. discriminate.
      * intros H. contradiction.
    + intros other Hne. rewrite filter_In. split; [intros [H _]; exact H|].
      intros H. split; [exact H|]. apply negb_true_iff.
      destruct (JsString.eqb other i) eqn:K; [|reflexivity].
      apply eqb_eq in K. contradiction.
    + apply NoDup_filter.
  - assert (N : ~ In i sel).
    { intros H. apply existsb_eqb_In in H. congruence. }
    split; [|split].
    + split; [intros _; exact N|]. intros _. apply in_or_app. right. left. reflexivity.
    + intros other Hne. rewrite in_app_iff. simpl. split; [|auto].
      intros [H | [H | []]]; [exact H | congruence].
    + intros D. apply NoDup_rev in D. rewrite <- (rev_involutive (sel ++ [i])).
      apply NoDup_rev. rewrite rev_app_distr. simpl. constructor; [|exact D].
      rewrite <- in_rev. exact N.
Qed.

(** X16. Selecting a document that was not selected and toggling it again
    gives back the selection as it was, order included. *)
Theorem toggle_twice_restores :
  forall (documentId : jsstring) (selectedDocuments : list jsstring),
    ~ In documentId selectedDocuments ->
    Documents.toggleDocumentSelection documentId
      (Documents.toggleDocumentSelection documentId selectedDocuments)
    = selectedDocuments.
Proof.
  intros i sel N. unfold Documents.toggleDocumentSelection at 2.
  destruct (existsb (JsString.eqb i) sel) eqn:E.
  - apply existsb_eqb_In in E. contradiction.
  - unfold Documents.toggleDocumentSelection.
    assert (X : existsb (JsString.eqb i) (sel ++ [i]) = true).
    { apply existsb_eqb_In, in_or_app. right. left. reflexivity. }
    rewrite X, filter_app, filter_others by exact N. simpl.
    rewrite eqb_refl. apply app_nil_r.
Qed.

(** X17. The names shown for the selection are non-empty file names, each the
    name of the first document carrying a selected id, at most one per
    selected id; an id no document carries shows nothing. *)
Theorem selected_names_are_filenames :
  forall (selectedDocuments : list jsstring)
         (documents : list Documents.Document),
    let names := Documents.getSelectedDocumentNames selectedDocuments documents in
    (forall x, In x names ->
       exists i doc,
         In i selectedDocuments
         /\ find (fun d => JsString.eqb (Documents.id d) i) documents = Some doc
         /\ In doc documents
         /\ Documents.id doc = i
         /\ x = Some (Documents.filename doc)
         /\ Documents.filename doc <> [])
    /\ List.length names <= List.length selectedDocuments
    /\ ((forall doc, In doc documents ->
           ~ In (Documents.id doc) selectedDocuments) -> names = []).
Proof.
  intros sel docs names. subst names. unfold Documents.getSelectedDocumentNames.
  split; [|split].
  - intros x H. apply filter_In in H as [H B]. apply in_map_iff in H as (i & E & Hi).
    unfold Documents.filenameOf in E.
    destruct (find (fun doc => JsString.eqb (Documents.id doc) i) docs) as [doc|] eqn:F.
    + pose proof F as F'. apply find_some in F as [Hd K]. apply eqb_eq in K.
      exists i, doc. simpl in E. subst x. simpl in B.
      repeat split; auto. intros Z. rewrite Z in B. discriminate.
    + simpl in E. subst x. discriminate.
  - etransitivity; [apply filter_length_le|]. rewrite length_map. apply le_n.
  - intros H. induction sel as [|i sel IH]; [reflexivity|]. simpl.
    unfold Documents.filenameOf at 1.
    destruct (find (fun doc => JsString.eqb (Documents.id doc) i) docs) as [doc|] eqn:F.
    + apply find_some in F as [Hd K]. apply eqb_eq in K.
      exfalso. apply (H doc Hd). left. symmetry. exact K.
    + simpl. apply IH. intros doc Hd K. apply (H doc Hd). right. exact K.
Qed.

(* ================================================================== *)
(** * The further statements at concrete inputs *)
(* ================================================================== *)

Lemma http_failure_reported_witness :
  let run :=
    StreamingChatClient.streamMessage_finish sampleParse (fun _ => str "500")
      sampleClient allHandlers
      (StreamingChatClient.Response false 500 (str "Internal Server Error")
         (Some (bodyOf [(tokenLine ++ nl ++ nl)%string]))) in
  (false = false \/ Some (bodyOf [(tokenLine ++ nl ++ nl)%string]) = None)
  /\ StreamingChatClient.effects run =
       [Invoke (OnError
          (StreamingChatClient.errorPayload
             (str "HTTP 500: Internal Server Error") "CLIENT_ERROR" false))].
Proof.
  intros run.
  pose (H := or_introl eq_refl
        : false = false \/ Some (bodyOf [(tokenLine ++ nl ++ nl)%string]) = None).
  split; [exact H|].
  exact (proj1 (@http_failure_reported sampleParse (fun _ => str "500")
                  allHandlers sampleClient false 500
                  (str "Internal Server Error") _ H)).
Defined.

Lemma hook_client_has_no_timeout_witness :
  let config :=
    {| StreamingChatClient.apiUrl := str "/api/chat/stream";
       StreamingChatClient.token := str "jwt";
       StreamingChatClient.timeout := None;
       StreamingChatClient.retryAttempts := None;
       StreamingChatClient.retryDelay := None |} in
  (StreamingChatClient.timeout config = None
   \/ StreamingChatClient.timeout config = Some None)
  /\ StreamingChatClient.signalSources modernRuntime
       (StreamingChatClient.streamMessage_begin 1
          (StreamingChatClient.create (hookConfig config)))
     = [StreamingChatClient.ManualAbort].
Proof.
  intros config.
  pose (H := or_introl eq_refl
        : StreamingChatClient.timeout config = None
          \/ StreamingChatClient.timeout config = Some None).
  split; [exact H|].
  exact (proj1 (proj2 (@hook_client_has_no_timeout modernRuntime config 1 H))).
Defined.

Lemma handleEvent_one_effect_witness :
  StreamingChatClient.handleEvent (mkEvent "token" (VStr (str "Hi")) (str "t"))
    allHandlers = Some [Invoke (OnToken (VStr (str "Hi")))]
  /\ List.length [Invoke (OnToken (VStr (str "Hi")))] <= 1.
Proof.
  pose (H := eq_refl
        : StreamingChatClient.handleEvent
            (mkEvent "token" (VStr (str "Hi")) (str "t")) allHandlers
          = Some [Invoke (OnToken (VStr (str "Hi")))]).
  split; [exact H|].
  exact (proj1 (@handleEvent_one_effect _ _ _ H)).
Defined.

Lemma heartbeat_chunk_is_inert_witness :
  let l := fst (StreamingChatClient.readAll sampleParse allHandlers
                  StreamingChatClient.start [bytes (tokenLine ++ nl ++ nl)]) in
  let comment := bytes ": ping" in
  StreamingChatClient.buffer l = []
  /\ TextDecoder.bytes_needed (TextDecoder.utf8 (StreamingChatClient.decoder l)) = 0%N
  /\ TextDecoder.BOM_seen (StreamingChatClient.decoder l) = true
  /\ isAscii comment = true
  /\ startsWith (str ":") (asciiText comment) = true
  /\ noLF (asciiText comment) = true
  /\ StreamingChatClient.onChunk sampleParse allHandlers l (comment ++ [x0a; x0a])
     = (l, []).
Proof.
  intros l comment.
  pose (H1 := eq_refl : StreamingChatClient.buffer l = []).
  pose (H2 := eq_refl
        : TextDecoder.bytes_needed
            (TextDecoder.utf8 (StreamingChatClient.decoder l)) = 0%N).
  pose (H3 := eq_refl : TextDecoder.BOM_seen (StreamingChatClient.decoder l) = true).
  pose (H4 := eq_refl : isAscii comment = true).
  pose (H5 := eq_refl : startsWith (str ":") (asciiText comment) = true).
  pose (H6 := eq_refl : noLF (asciiText comment) = true).
  split; [exact H1|]. split; [exact H2|]. split; [exact H3|].
  split; [exact H4|]. split; [exact H5|]. split; [exact H6|].
  exact (@heartbeat_chunk_is_inert sampleParse allHandlers l comment
           H1 H2 H3 H4 H5 H6).
Defined.

Lemma completion_does_not_cancel_flush_witness :
  let st0 := fst (ChatInterface.handleSubmit false
                    (ChatInterface.setMessage (str "q") ChatInterface.initial)) in
  let st := ChatInterface.run [ChatInterface.Call 1 (ChatInterface.Token (str "Hi"))]
              st0 in
  let st1 := fst (ChatInterface.runCallback 1 ChatInterface.CompleteResume st) in
  let st2 := fst (ChatInterface.step (ChatInterface.AnimationFrame 1) st1) in
  ChatInterface.currentSessionRef st = 1%Z
  /\ ChatInterface.setterRef st = Some ChatInterface.setStreamingResponse
  /\ In 1%nat (ChatInterface.frameRequests st)
  /\ (ChatInterface.CompleteResume = ChatInterface.CompleteResume
      \/ exists msg, ChatInterface.CompleteResume = ChatInterface.Error msg)
  /\ ChatInterface.streamingResponse st2 = ChatInterface.pendingTokens st
  /\ ChatInterface.pendingTokens st = str "Hi".
Proof.
  intros st0 st st1 st2.
  pose (H1 := eq_refl : ChatInterface.currentSessionRef st = 1%Z).
  pose (H2 := eq_refl
        : ChatInterface.setterRef st = Some ChatInterface.setStreamingResponse).
  pose (H3 := or_introl eq_refl : In 1%nat (ChatInterface.frameRequests st)).
  pose (H4 := or_introl eq_refl
        : ChatInterface.CompleteResume = ChatInterface.CompleteResume
          \/ exists msg, ChatInterface.CompleteResume = ChatInterface.Error msg).
  split; [exact H1|]. split; [exact H2|]. split; [exact H3|]. split; [exact H4|].
  split; [|reflexivity].
  exact (proj1 (proj2 (proj2 (@completion_does_not_cancel_flush st 1%Z 1%nat
                                ChatInterface.CompleteResume H1 H2 H3 H4)))).
Defined.

Lemma toggle_twice_restores_witness :
  ~ In (str "doc-2") [str "doc-1"]
  /\ Documents.toggleDocumentSelection (str "doc-2")
       (Documents.toggleDocumentSelection (str "doc-2") [str "doc-1"])
     = [str "doc-1"].
Proof.
  assert (H : ~ In (str "doc-2") [str "doc-1"]).
  { intros [E | []]. discriminate E. }
  split; [exact H|]. exact (@toggle_twice_restores (str "doc-2") [str "doc-1"] H).
Defined.
